(** * File-Uploader: the file routes (src/routes/files.js)

    A shallow embedding of the Express router that lists, uploads,
    downloads, shows, deletes and re-files the uploaded files, together with
    the part of the Prisma client and of the file system the handlers call.

    Conventions.
    - A table of the database is the list of its rows; the identifier column
      is a primary key, which is the invariant [wf] below.
    - A handler is a function from the world (database, disk, console) to a
      response and a new world.  The handlers' [catch (error)] branches answer
      a fault of the database driver; the tables here are total functions, so
      those branches have nothing to catch and are left out.  The one
      exception the model does raise is that of [fs.unlink], whose [catch] is
      modelled.
    - [Number(req.params.id)] is the integer [id] the routes take: a segment
      that is no number never names a file.
    - [ensureAuthenticated] and the validators of ../middleware are not among
      the sources: the guard is the parameter [unauthenticated] (what it
      answers when there is no [req.user]); the handlers start where the
      validators have let the request through. *)

From Stdlib Require Import ZArith String Ascii.
From stdpp Require Import base decidable option list sorting strings pretty.

Local Open Scope Z_scope.
Set Warnings "-register-all".

(** ** Data model *)

(** User identifiers are ownership tokens of which only equality is used. *)
Definition UserId := Z.
(** Folder identifiers arrive as the text of a form field and are handed to
    the store unchanged. *)
Definition FolderId := string.

Module User.
(** [req.user], as [deserializeUser] of src/config/passport.js selects it. *)
Record t := mk { id : UserId; email : string; name : string; createdAt : Z }.
End User.

Module Folder.
Record t := mk {
  id : FolderId;
  name : string;
  userId : UserId;
  parentId : option FolderId
}.
End Folder.

Module File.
Record t := mk {
  id : Z;
  filename : string;
  originalName : string;
  mimeType : string;
  size : Z;
  path : string;
  description : option string;
  isPublic : bool;
  userId : UserId;
  folderId : option FolderId;
  uploadedAt : Z
}.

(** [data: { folderId: v }] of an update: every other column is kept. *)
Definition with_folderId (v : option FolderId) (f : t) : t :=
  mk (id f) (filename f) (originalName f) (mimeType f) (size f) (path f)
     (description f) (isPublic f) (userId f) v (uploadedAt f).
End File.

(** ** The Prisma client, as far as the routes use it *)

Module Prisma.

(** A [where] argument.  [Field None] is a key whose value is [undefined]:
    the client omits such a key ("undefined means do nothing"), so the object
    it sits in has one filter less.  [Obj] is an object with several keys,
    all of which must hold; [OR] is the list under the key [OR].  A member
    that comes out empty is removed from the list before the list is
    evaluated, and an [OR] left with no member matches no row (the client's
    table of operators: [OR] with 0 filters returns the empty list, [AND]
    with 0 filters returns all items). *)
Inductive Where (A : Type) : Type :=
| Field (p : option (A → bool))
| Obj (ws : list (Where A))
| OR (ws : list (Where A)).
Arguments Field {A} p.
Arguments Obj {A} ws.
Arguments OR {A} ws.

(** The filter a [where] argument denotes, [None] when it is empty. *)
Fixpoint extract {A} (w : Where A) : option (A → bool) :=
  match w with
  | Field p => p
  | Obj ws =>
      match omap extract ws with
      | [] => None
      | ps => Some (λ a, forallb (λ p : A → bool, p a) ps)
      end
  | OR ws => Some (λ a, existsb (λ p : A → bool, p a) (omap extract ws))
  end.

(** An empty filter selects every row. *)
Definition matches {A} (w : Where A) (a : A) : bool :=
  match extract w with
  | None => true
  | Some p => p a
  end.

(** [{ key: v }] for a column [col]; [v = None] is [undefined]. *)
Definition equals {A B} `{EqDecision B} (col : A → B) (v : option B) : Where A :=
  Field ((λ b a, bool_decide (col a = b)) <$> v).

Definition findFirst {A} (w : Where A) (rows : list A) : option A :=
  head (filter (λ a, matches w a = true) rows).

(** [findMany] with an [orderBy]: [le a b] says that [a] may come before
    [b].  The order of rows that tie is the store's; the model keeps the
    one [merge_sort] gives. *)
Definition findMany {A} (w : Where A) (le : A → A → Prop)
    `{∀ a b, Decision (le a b)} (rows : list A) : list A :=
  merge_sort le (filter (λ a, matches w a = true) rows).

End Prisma.

(** [orderBy: { uploadedAt: "desc" }] *)
Definition uploadedAt_desc (a b : File.t) : Prop :=
  File.uploadedAt b ≤ File.uploadedAt a.
(** [orderBy: { name: "asc" }], with the byte order of the names standing for
    the collation of the database. *)
Definition name_asc (a b : Folder.t) : Prop :=
  String.leb (Folder.name a) (Folder.name b) = true.

#[global] Instance uploadedAt_desc_dec a b : Decision (uploadedAt_desc a b).
Proof. unfold uploadedAt_desc. apply _. Defined.
#[global] Instance name_asc_dec a b : Decision (name_asc a b).
Proof. unfold name_asc. apply _. Defined.

(** The database: the two tables and the next identifier of the files'
    sequence. *)
Record Db := mkDb {
  files : list File.t;
  folders : list Folder.t;
  nextFileId : Z
}.

(** The [data] of [prisma.file.create]: the columns the upload route names. *)
Module FileInput.
Record t := mk {
  filename : string;
  originalName : string;
  mimeType : string;
  size : Z;
  path : string;
  description : option string;
  isPublic : bool;
  userId : UserId;
  folderId : option FolderId
}.
End FileInput.

(** Modelled from the spec: schema.prisma is not among the sources.  The spec
    has a File's identifier "unique, store-assigned" and gives a File a
    creation timestamp, by which the listings are ordered; the two columns a
    [create] does not name are filled by the store, the identifier from the
    files' sequence and the timestamp from the clock. *)
Definition new_row (id now : Z) (data : FileInput.t) : File.t :=
  File.mk id (FileInput.filename data) (FileInput.originalName data)
    (FileInput.mimeType data) (FileInput.size data) (FileInput.path data)
    (FileInput.description data) (FileInput.isPublic data)
    (FileInput.userId data) (FileInput.folderId data) now.

(** [prisma.file.create({ data })] at time [now] *)
Definition file_create (now : Z) (data : FileInput.t) (d : Db) : Db :=
  mkDb (files d ++ [new_row (nextFileId d) now data]) (folders d)
       (nextFileId d + 1).

(** [prisma.file.delete({ where: { id } })] *)
Definition file_delete (id : Z) (d : Db) : Db :=
  mkDb (filter (λ f, File.id f ≠ id) (files d)) (folders d) (nextFileId d).

(** [prisma.file.update({ where: { id }, data: { folderId } })] *)
Definition file_update (id : Z) (folderId : option FolderId) (d : Db) : Db :=
  mkDb ((λ f, if decide (File.id f = id)
              then File.with_folderId folderId f else f) <$> files d)
       (folders d) (nextFileId d).

(** ** Requests and responses *)

(** The value of an optional text field when it is truthy: [v || null], and
    the branch taken by [if (v)]. *)
Definition truthy (v : option string) : option string :=
  match v with
  | Some s => if decide (s = ""%string) then None else Some s
  | None => None
  end.

Module Upload.
(** [req.file], as multer leaves it *)
Record file := mkFile {
  filename : string;
  originalname : string;
  mimetype : string;
  size : Z;
  path : string
}.
(** the request of POST /files/upload: the messages of
    [validationResult(req)], the stored file if any, and the text fields *)
Record req := mkReq {
  errors : list string;
  uploaded : option file;
  folderId : option string;
  description : option string;
  isPublic : option string
}.
(** the same request with another value in the folder field *)
Definition with_folderId (v : option string) (r : req) : req :=
  mkReq (errors r) (uploaded r) v (description r) (isPublic r).
End Upload.

Inductive Location :=
| ToFiles               (* "/files" *)
| ToUpload              (* "/files/upload" *)
| ToFile (id : Z).      (* `/files/${req.params.id}` *)

Inductive Locals :=
| Title (title : string)
| Files (title : string) (files : list File.t) (user : option User.t)
| UploadForm (title : string) (folders : list Folder.t)
    (selectedFolderId : option string)
| Info (title : string) (file : File.t) (folders : list Folder.t)
    (user : option User.t) (canEdit : bool).

Inductive JsonBody :=
| JSuccess                   (* { success: true } *)
| JError (error : string).   (* { error } *)

Inductive Response :=
| Render (status : Z) (view : string) (locals : Locals)
| Download (path originalName : string)
| Json (status : Z) (body : JsonBody)
| Redirect (flash : list (string * string)) (to : Location).

(** What the handlers can change: the database, the uploads directory and
    the error log. *)
Record World (Disk : Type) := mkWorld {
  db : Db;
  disk : Disk;
  console : list (string * string)
}.
Arguments mkWorld {Disk} db disk console.
Arguments db {Disk} w.
Arguments disk {Disk} w.
Arguments console {Disk} w.

Definition set_db {Disk} (d : Db) (w : World Disk) : World Disk :=
  mkWorld d (disk w) (console w).

(** ** The routes *)

Section Routes.

(** The uploads directory.  [unlink p d] is [fs.unlink(p)]: the directory
    afterwards, and the error when the call throws. *)
Context {Disk : Type}.
Variable unlink : string → Disk → option string * Disk.

(** The answer of [ensureAuthenticated] to a request without [req.user]. *)
Variable unauthenticated : Response.

Abbreviation W := (World Disk).

(** Modelled from the spec: ../middleware/auth is not among the sources.  The
    spec has the guarded operations require an authenticated principal, which
    the authentication collaborator supplies as [req.user]: the guard hands
    that user to the handler, and without one it answers by itself and the
    handler does not run. *)
Definition ensureAuthenticated (user : option User.t)
    (next : User.t → W → Response * W) (w : W) : Response * W :=
  match user with
  | Some u => next u w
  | None => (unauthenticated, w)
  end.

(** [{ id: Number(req.params.id), OR: [{ userId: req.user?.id }, { isPublic: true }] }] *)
Definition where_visible (user : option User.t) (id : Z) : Prisma.Where File.t :=
  Prisma.Obj [Prisma.equals File.id (Some id);
              Prisma.OR [Prisma.equals File.userId (User.id <$> user);
                         Prisma.equals File.isPublic (Some true)]].

(** [{ id: Number(req.params.id), userId: req.user.id }] *)
Definition where_owned (user : User.t) (id : Z) : Prisma.Where File.t :=
  Prisma.Obj [Prisma.equals File.id (Some id);
              Prisma.equals File.userId (Some (User.id user))].

(** [{ id: folderId, userId: req.user.id }] *)
Definition where_folder (user : User.t) (folderId : FolderId) : Prisma.Where Folder.t :=
  Prisma.Obj [Prisma.equals Folder.id (Some folderId);
              Prisma.equals Folder.userId (Some (User.id user))].

Definition not_found_page : Response :=
  Render 404 "404" (Title "File Not Found").

(** GET /files/public *)
Definition get_public (w : W) : Response * W :=
  let files :=
    Prisma.findMany (Prisma.equals File.isPublic (Some true)) uploadedAt_desc
      (files (db w)) in
  (Render 200 "files/public" (Files "Public Files" files None), w).

(** GET /files *)
Definition get_index (user : option User.t) : W → Response * W :=
  ensureAuthenticated user (λ user w,
    let files :=
      Prisma.findMany (Prisma.equals File.userId (Some (User.id user)))
        uploadedAt_desc (files (db w)) in
    (Render 200 "files/index" (Files "My Files" files (Some user)), w)).

(** GET /files/upload *)
Definition get_upload (user : option User.t) (folder : option string)
    : W → Response * W :=
  ensureAuthenticated user (λ user w,
    let folders :=
      Prisma.findMany (Prisma.equals Folder.userId (Some (User.id user)))
        name_asc (folders (db w)) in
    (Render 200 "files/upload" (UploadForm "Upload File" folders (truthy folder)), w)).

(** POST /files/upload, at time [now] *)
Definition post_upload (user : option User.t) (now : Z) (req : Upload.req)
    : W → Response * W :=
  ensureAuthenticated user (λ user w,
    match Upload.errors req with
    | _ :: _ =>
        (Redirect ((λ msg, ("error", msg)) <$> Upload.errors req) ToUpload, w)
    | [] =>
        match Upload.uploaded req with
        | None => (Redirect [("error", "No file uploaded")] ToUpload, w)
        | Some file =>
            let folderId :=
              match truthy (Upload.folderId req) with
              | Some folderId =>
                  match Prisma.findFirst (where_folder user folderId)
                          (folders (db w)) with
                  | Some _ => Some folderId
                  | None => None
                  end
              | None => None
              end in
            let data :=
              FileInput.mk (Upload.filename file) (Upload.originalname file)
                (Upload.mimetype file) (Upload.size file) (Upload.path file)
                (truthy (Upload.description req))
                (bool_decide (Upload.isPublic req = Some "true"))
                (User.id user) folderId in
            (Redirect [("success", "File uploaded successfully!")] ToFiles,
             set_db (file_create now data (db w)) w)
        end
    end)%string.

(** GET /files/:id/download *)
Definition get_download (user : option User.t) (id : Z) (w : W) : Response * W :=
  match Prisma.findFirst (where_visible user id) (files (db w)) with
  | None => (not_found_page, w)
  | Some file => (Download (File.path file) (File.originalName file), w)
  end.

(** DELETE /files/:id *)
Definition delete_file (user : option User.t) (id : Z) : W → Response * W :=
  ensureAuthenticated user (λ user w,
    match Prisma.findFirst (where_owned user id) (files (db w)) with
    | None => (Json 404 (JError "File not found"), w)
    | Some file =>
        let w :=
          match unlink (File.path file) (disk w) with
          | (Some fsError, d) =>
              mkWorld (db w) d
                (console w ++ [("Error deleting file from filesystem:", fsError)])
          | (None, d) => mkWorld (db w) d (console w)
          end in
        (Json 200 JSuccess, set_db (file_delete (File.id file) (db w)) w)
    end)%string.

(** GET /files/:id *)
Definition get_info (user : option User.t) (id : Z) (w : W) : Response * W :=
  match Prisma.findFirst (where_visible user id) (files (db w)) with
  | None => (not_found_page, w)
  | Some file =>
      let canEdit :=
        match user with
        | Some u => bool_decide (File.userId file = User.id u)
        | None => false
        end in
      let folders :=
        match user with
        | Some u =>
            if canEdit
            then Prisma.findMany (Prisma.equals Folder.userId (Some (User.id u)))
                   name_asc (folders (db w))
            else []
        | None => []
        end in
      (Render 200 "files/info"
         (Info (File.originalName file) file folders user canEdit), w)
  end.

(** POST /files/:id/assign-folder *)
Definition assign_folder (user : option User.t) (id : Z)
    (folderId : option string) : W → Response * W :=
  ensureAuthenticated user (λ user w,
    match Prisma.findFirst (where_owned user id) (files (db w)) with
    | None => (Redirect [("error", "File not found")] ToFiles, w)
    | Some file =>
        let move validatedFolderId :=
          (Redirect [("success", "File moved successfully")] (ToFile id),
           set_db (file_update (File.id file) validatedFolderId (db w)) w) in
        match truthy folderId with
        | Some folderId =>
            match Prisma.findFirst (where_folder user folderId)
                    (folders (db w)) with
            | None =>
                (Redirect [("error", "Selected folder not found")] (ToFile id), w)
            | Some _ => move (Some folderId)
            end
        | None => move None
        end
    end)%string.

(** One request to the router. *)
Inductive Request :=
| GET_public
| GET_index (user : option User.t)
| GET_upload (user : option User.t) (folder : option string)
| POST_upload (user : option User.t) (now : Z) (req : Upload.req)
| GET_download (user : option User.t) (id : Z)
| DELETE_file (user : option User.t) (id : Z)
| GET_info (user : option User.t) (id : Z)
| POST_assign_folder (user : option User.t) (id : Z) (folderId : option string).

Definition handle (r : Request) : W → Response * W :=
  match r with
  | GET_public => get_public
  | GET_index user => get_index user
  | GET_upload user folder => get_upload user folder
  | POST_upload user now req => post_upload user now req
  | GET_download user id => get_download user id
  | DELETE_file user id => delete_file user id
  | GET_info user id => get_info user id
  | POST_assign_folder user id folderId => assign_folder user id folderId
  end.

(** The world after a sequence of requests, served one after the other. *)
Definition serve (rs : list Request) (w : W) : W :=
  foldl (λ w r, (handle r w).2) w rs.

End Routes.

(** ** Integrity of the database *)

(** The constraints the store keeps (the spec has every identifier unique
    and store-assigned): identifiers are primary keys, and the files'
    sequence is ahead of every identifier it has handed out. *)
Record wf (d : Db) : Prop := mk_wf {
  wf_file_ids : NoDup (File.id <$> files d);
  wf_sequence : ∀ f, f ∈ files d → File.id f < nextFileId d;
  wf_folder_ids : NoDup (Folder.id <$> folders d)
}.

(** Every filed File lies in a Folder of its own owner. *)
Definition filed_with_owner (d : Db) : Prop :=
  ∀ f folderId, f ∈ files d → File.folderId f = Some folderId →
    ∃ g, g ∈ folders d ∧ Folder.id g = folderId ∧ Folder.userId g = File.userId f.

(** A directory in which a blob is removed when it is there, and whose
    [unlink] throws when it is not. *)
Definition unlink_paths (p : string) (d : list string) : option string * list string :=
  if decide (p ∈ d) then (None, filter (λ q, q ≠ p) d)
  else (Some "ENOENT: no such file or directory"%string, d).

(** Whether the reader of a request is the owner of a file. *)
Definition owns (reader : option User.t) (F : File.t) : bool :=
  match reader with
  | Some u => bool_decide (File.userId F = User.id u)
  | None => false
  end.

(** The row an accepted upload stores, given the folder it resolved. *)
Definition uploaded_row {Disk} (w : World Disk) (P : User.t) (now : Z)
    (req : Upload.req) (file : Upload.file) (folderId : option FolderId)
    : File.t :=
  new_row (nextFileId (db w)) now
    (FileInput.mk (Upload.filename file) (Upload.originalname file)
       (Upload.mimetype file) (Upload.size file) (Upload.path file)
       (truthy (Upload.description req))
       (bool_decide (Upload.isPublic req = Some "true"%string))
       (User.id P) folderId).

(** What a request can do to the database: nothing, store a row whose
    folder, if any, is one of its owner's, remove the rows with an
    identifier, or re-file a row under a folder of its owner's. *)
Inductive db_step (d : Db) : Db → Prop :=
| step_none : db_step d d
| step_create now data :
    (∀ folderId, FileInput.folderId data = Some folderId →
       ∃ g, g ∈ folders d ∧ Folder.id g = folderId
            ∧ Folder.userId g = FileInput.userId data) →
    db_step d (file_create now data d)
| step_delete id : db_step d (file_delete id d)
| step_update F folderId :
    F ∈ files d →
    (∀ id, folderId = Some id →
       ∃ g, g ∈ folders d ∧ Folder.id g = id ∧ Folder.userId g = File.userId F) →
    db_step d (file_update (File.id F) folderId d).

(** A folder reference a user may file under: none, or a folder of theirs. *)
Definition resolves (d : Db) (P : User.t) (folderId : option string) : Prop :=
  match truthy folderId with
  | None => True
  | Some id => ∃ g, g ∈ folders d ∧ Folder.id g = id ∧ Folder.userId g = User.id P
  end.

(** The answer of a guarded route to a reader who may not touch a file: the
    guard's own when there is no user, the route's [not_found] otherwise. *)
Definition refused (unauthenticated : Response) (reader : option User.t)
    (not_found : Response) : Response :=
  match reader with
  | Some _ => not_found
  | None => unauthenticated
  end.

(** ** A small deployment, for the examples

    Two users; a folder each; Alice's private [f1] (whose blob is gone from
    the disk) and public [f2], Bob's private [f3]. *)
Module Sample.
Definition alice : User.t := User.mk 1 "alice@example.org" "Alice" 0.
Definition bob : User.t := User.mk 2 "bob@example.org" "Bob" 0.
Definition g1 : Folder.t := Folder.mk "g1" "Reports" 1 None.
Definition g2 : Folder.t := Folder.mk "g2" "Photos" 2 None.
Definition f1 : File.t :=
  File.mk 1 "100-1-a.txt" "a.txt" "text/plain" 12 "uploads/100-1-a.txt"
    None false 1 None 100.
Definition f2 : File.t :=
  File.mk 2 "200-2-b.png" "b.png" "image/png" 2048 "uploads/200-2-b.png"
    (Some "logo") true 1 (Some "g1") 200.
Definition f3 : File.t :=
  File.mk 3 "150-3-c.pdf" "c.pdf" "application/pdf" 4096 "uploads/150-3-c.pdf"
    None false 2 None 150.
Definition database : Db := mkDb [f1; f2; f3] [g1; g2] 4.
Definition world : World (list string) :=
  mkWorld database ["uploads/200-2-b.png"; "uploads/150-3-c.pdf"] [].
(** what the guard is taken to answer in the examples *)
Definition login : Response := Redirect [("error", "Please log in")] ToFiles.
Definition blob : Upload.file :=
  Upload.mkFile "300-4-d.txt" "d.txt" "text/plain" 7 "uploads/300-4-d.txt".
Definition upload_to (folderId isPublic : option string) : Upload.req :=
  Upload.mkReq [] (Some blob) folderId None isPublic.
End Sample.

(** ** The rest of the router and the login strategy *)

(** The user a request is made by. *)
Definition requester (r : Request) : option User.t :=
  match r with
  | GET_public => None
  | GET_index user | GET_upload user _ | POST_upload user _ _
  | GET_download user _ | DELETE_file user _ | GET_info user _
  | POST_assign_folder user _ _ => user
  end.

(** The requests served by [router.get]. *)
Definition is_get (r : Request) : bool :=
  match r with
  | GET_public | GET_index _ | GET_upload _ _ | GET_download _ _ | GET_info _ _ =>
      true
  | POST_upload _ _ _ | DELETE_file _ _ | POST_assign_folder _ _ _ => false
  end.

(** Two rows that agree on every column but the folder. *)
Definition same_but_folder (F F' : File.t) : Prop :=
  File.with_folderId None F = File.with_folderId None F'.

(** *** multer *)

(** [t] occurs in [s]. *)
Fixpoint contains (t s : string) : bool :=
  String.prefix t s
  || match s with
     | EmptyString => false
     | String _ s' => contains t s'
     end.

(** The alternatives of [allowedTypes]. *)
Definition allowedTypes : list string :=
  ["jpeg"; "jpg"; "png"; "gif"; "pdf"; "doc"; "docx"; "txt"; "zip"; "mp4";
   "mov"; "avi"; "mp3"; "wav"]%string.

(** [allowedTypes.test(s)]: the pattern has no anchor, so it looks for one
    of its alternatives anywhere in [s]. *)
Definition allowedTypes_test (s : string) : bool :=
  existsb (λ t, contains t s) allowedTypes.

(** What a multer callback is called with: [cb(null, value)] or [cb(error)]. *)
Inductive Callback (A : Type) :=
| cb_ok (value : A)
| cb_error (message : string).
Arguments cb_ok {A} value.
Arguments cb_error {A} message.

Section Multer.
(** [path.extname] and [String.prototype.toLowerCase] *)
Variable extname : string → string.
Variable toLowerCase : string → string.

(** [fileFilter] of the upload *)
Definition fileFilter (originalname mimetype : string) : Callback bool :=
  let extname := allowedTypes_test (toLowerCase (extname originalname)) in
  let mimetype := allowedTypes_test mimetype in
  if mimetype && extname then cb_ok true
  else cb_error "Only specific file types are allowed!".
End Multer.

(** [filename] of the disk storage, for the values [now] of [Date.now()] and
    [rnd] of [Math.round(Math.random() * 1e9)], both printed in decimal. *)
Definition storage_filename (now rnd : N) (originalname : string)
    : Callback string :=
  let uniqueSuffix := pretty now +:+ "-" +:+ pretty rnd in
  cb_ok (uniqueSuffix +:+ "-" +:+ originalname).

(** A text without the separator of the stored names. *)
Fixpoint dash_free (s : string) : bool :=
  match s with
  | EmptyString => true
  | String c s' => negb (bool_decide (c = "-"%char)) && dash_free s'
  end.

(** The MIME types that browsers send for five of the listed extensions
    (.txt, .doc, .mov, .avi, .mp3). *)
Definition unlisted_mimetypes : list string :=
  ["text/plain"; "application/msword"; "video/quicktime"; "video/x-msvideo";
   "audio/mpeg"]%string.

(** *** passport (src/config/passport.js) *)

(** A row of the users' table. *)
Module Account.
Record t := mk {
  id : UserId;
  email : string;
  name : string;
  password : string;
  createdAt : Z
}.
End Account.

(** What [done] is called with: [done(error)], [done(null, false, { message })]
    or [done(null, user)]. *)
Inductive Done (A : Type) :=
| done_error (error : string)
| done_false (message : string)
| done_user (user : A).
Arguments done_error {A} error.
Arguments done_false {A} message.
Arguments done_user {A} user.

(** [findUnique]: a lookup by a column that is a key. *)
Definition findUnique {A} (w : Prisma.Where A) (rows : list A) : option A :=
  Prisma.findFirst w rows.

Section Passport.
(** [String.prototype.toLowerCase] and [bcrypt.compare] *)
Variable toLowerCase : string → string.
Variable bcrypt_compare : string → string → bool.

(** the verify function of the [LocalStrategy] *)
Definition verify (users : list Account.t) (email password : string)
    : Done Account.t :=
  match findUnique
          (Prisma.Obj [Prisma.equals Account.email (Some (toLowerCase email))])
          users with
  | None => done_false "No user found with that email address."
  | Some user =>
      if bcrypt_compare password (Account.password user)
      then done_user user
      else done_false "Incorrect password."
  end.

(** [passport.serializeUser] *)
Definition serializeUser (user : Account.t) : UserId := Account.id user.

(** [select: { id: true, email: true, name: true, createdAt: true }] *)
Definition selected (user : Account.t) : User.t :=
  User.mk (Account.id user) (Account.email user) (Account.name user)
    (Account.createdAt user).

(** [passport.deserializeUser] *)
Definition deserializeUser (users : list Account.t) (id : UserId) : Done User.t :=
  match findUnique (Prisma.Obj [Prisma.equals Account.id (Some id)]) users with
  | None => done_error "User not found"
  | Some user => done_user (selected user)
  end.
End Passport.

(** The accounts of the sample deployment; passwords are kept as
    ["hash:" ++ password]. *)
Module SampleAccounts.
Definition alice : Account.t :=
  Account.mk 1 "alice@example.org" "Alice" "hash:wonderland" 0.
Definition bob : Account.t :=
  Account.mk 2 "bob@example.org" "Bob" "hash:builder" 0.
Definition users : list Account.t := [alice; bob].
Definition compare (password hash : string) : bool :=
  bool_decide (hash = ("hash:" +:+ password)%string).
End SampleAccounts.

(** * Properties *)

(** ** Queries *)

Section Queries.
Context {A : Type}.
Implicit Types (w : Prisma.Where A) (rows : list A) (a : A).

Lemma findFirst_Some w rows a :
  Prisma.findFirst w rows = Some a → a ∈ rows ∧ Prisma.matches w a = true.
Proof.
  unfold Prisma.findFirst. intros H%head_Some_elem_of.
  apply list_elem_of_filter in H. tauto.
Qed.

Lemma findFirst_None w rows :
  Prisma.findFirst w rows = None ↔ ∀ a, a ∈ rows → Prisma.matches w a = false.
Proof.
  unfold Prisma.findFirst. rewrite head_None. split.
  - intros Hnil a Ha. destruct (Prisma.matches w a) eqn:E; [|done].
    exfalso. eapply filter_nil_not_elem_of; [exact Hnil| |exact Ha]. exact E.
  - intros Hall. induction rows as [|x rows IH]; [done|].
    rewrite filter_cons_False.
    + apply IH. intros a Ha. apply Hall. by right.
    + rewrite (Hall x) by left. done.
Qed.

Lemma findFirst_found w rows a :
  a ∈ rows → Prisma.matches w a = true → is_Some (Prisma.findFirst w rows).
Proof.
  intros Ha Hm. destruct (Prisma.findFirst w rows) eqn:E; [by eexists|].
  rewrite findFirst_None in E. rewrite (E a Ha) in Hm. done.
Qed.

(** When at most one row can match, [findFirst] returns it. *)
Lemma findFirst_the w rows a :
  a ∈ rows → Prisma.matches w a = true →
  (∀ b, b ∈ rows → Prisma.matches w b = true → b = a) →
  Prisma.findFirst w rows = Some a.
Proof.
  intros Ha Hm Huniq. destruct (findFirst_found w rows a Ha Hm) as [b Hb].
  rewrite Hb. f_equal. apply findFirst_Some in Hb as [? ?]. by apply Huniq.
Qed.

Lemma findMany_Permutation w (le : A → A → Prop) `{∀ a b, Decision (le a b)} rows :
  Prisma.findMany w le rows ≡ₚ filter (λ a, Prisma.matches w a = true) rows.
Proof. apply merge_sort_Permutation. Qed.

Lemma findMany_Sorted w (le : A → A → Prop) `{∀ a b, Decision (le a b)}
    `{!Transitive le, !Total le} rows :
  StronglySorted le (Prisma.findMany w le rows).
Proof. apply StronglySorted_merge_sort; apply _. Qed.

End Queries.

(** The two cases of the client's documentation: a lone [undefined] filter
    under [OR] selects nothing, in an object it selects everything. *)
Example or_of_undefined_selects_nothing (f : File.t) :
  Prisma.matches (Prisma.OR [Prisma.equals File.userId None]) f = false.
Proof. reflexivity. Qed.

Example undefined_key_selects_everything (f : File.t) :
  Prisma.matches (Prisma.Obj [Prisma.equals File.userId None]) f = true.
Proof. reflexivity. Qed.

#[global] Instance uploadedAt_desc_trans : Transitive uploadedAt_desc.
Proof. unfold uploadedAt_desc. intros a b c ? ?. lia. Qed.
#[global] Instance uploadedAt_desc_total : Total uploadedAt_desc.
Proof. unfold uploadedAt_desc. intros a b. lia. Qed.

(** What the three [where] arguments of the routes select. *)
Lemma matches_where_visible user id f :
  Prisma.matches (where_visible user id) f =
  bool_decide (File.id f = id)
  && (match user with
      | Some u => bool_decide (File.userId f = User.id u)
      | None => false
      end || File.isPublic f).
Proof.
  destruct user as [u|]; cbn; rewrite ?andb_true_r, ?orb_false_r;
    do 2 f_equal; by destruct (File.isPublic f).
Qed.

Lemma matches_where_owned user id f :
  Prisma.matches (where_owned user id) f =
  bool_decide (File.id f = id) && bool_decide (File.userId f = User.id user).
Proof. cbn. by rewrite andb_true_r. Qed.

Lemma matches_where_folder user folderId g :
  Prisma.matches (where_folder user folderId) g =
  bool_decide (Folder.id g = folderId)
  && bool_decide (Folder.userId g = User.id user).
Proof. cbn. by rewrite andb_true_r. Qed.

(** ** Lookups by primary key *)

Lemma key_unique {A B} (key : A → B) (l : list A) (a b : A) :
  NoDup (key <$> l) → a ∈ l → b ∈ l → key a = key b → a = b.
Proof.
  induction l as [|x l IH]; intros Hnd Ha Hb Hk; [by apply elem_of_nil in Ha|].
  rewrite fmap_cons in Hnd. apply NoDup_cons in Hnd as [Hx Hnd].
  apply elem_of_cons in Ha as [->|Ha]; apply elem_of_cons in Hb as [->|Hb].
  - done.
  - exfalso. apply Hx. rewrite Hk. by apply list_elem_of_fmap_2.
  - exfalso. apply Hx. rewrite <- Hk. by apply list_elem_of_fmap_2.
  - by apply IH.
Qed.

Lemma file_of_id d f g :
  wf d → f ∈ files d → g ∈ files d → File.id f = File.id g → f = g.
Proof. intros [Hnd _ _]. by apply key_unique. Qed.

Section Lookups.
Implicit Types (d : Db) (F : File.t) (user : User.t) (reader : option User.t).

Lemma visible_lookup d reader F :
  wf d → F ∈ files d →
  Prisma.findFirst (where_visible reader (File.id F)) (files d) =
  if owns reader F || File.isPublic F then Some F else None.
Proof.
  intros Hwf HF. destruct (owns reader F || File.isPublic F) eqn:E.
  - apply findFirst_the; [done| |].
    + rewrite matches_where_visible, bool_decide_eq_true_2 by done. exact E.
    + intros b Hb Hm. rewrite matches_where_visible in Hm.
      apply andb_true_iff in Hm as [Hid%bool_decide_eq_true _].
      by apply (file_of_id d).
  - apply findFirst_None. intros b Hb.
    rewrite matches_where_visible. destruct (bool_decide_reflect (File.id b = File.id F)) as [Hid|]; [|done].
    rewrite (file_of_id d b F) by done. exact E.
Qed.

Lemma owned_lookup d user F :
  wf d → F ∈ files d →
  Prisma.findFirst (where_owned user (File.id F)) (files d) =
  if bool_decide (File.userId F = User.id user) then Some F else None.
Proof.
  intros Hwf HF. destruct (bool_decide (File.userId F = User.id user)) eqn:E.
  - apply findFirst_the; [done| |].
    + rewrite matches_where_owned, bool_decide_eq_true_2 by done. exact E.
    + intros b Hb Hm. rewrite matches_where_owned in Hm.
      apply andb_true_iff in Hm as [Hid%bool_decide_eq_true _].
      by apply (file_of_id d).
  - apply findFirst_None. intros b Hb.
    rewrite matches_where_owned. destruct (bool_decide_reflect (File.id b = File.id F)) as [Hid|]; [|done].
    rewrite (file_of_id d b F) by done. exact E.
Qed.

(** Without the key constraint an owner still finds a row of theirs. *)
Lemma owned_lookup_some d user F :
  F ∈ files d → File.userId F = User.id user →
  ∃ G, Prisma.findFirst (where_owned user (File.id F)) (files d) = Some G
       ∧ G ∈ files d ∧ File.id G = File.id F.
Proof.
  intros HF Hown.
  destruct (findFirst_found (where_owned user (File.id F)) (files d) F HF) as [G HG].
  { rewrite matches_where_owned. by rewrite !bool_decide_eq_true_2. }
  exists G. split; [done|]. apply findFirst_Some in HG as [HG Hm]. split; [done|].
  rewrite matches_where_owned in Hm.
  by apply andb_true_iff in Hm as [Hid%bool_decide_eq_true _].
Qed.

Lemma visible_lookup_absent (rows : list File.t) reader id :
  (∀ g, g ∈ rows → File.id g ≠ id) →
  Prisma.findFirst (where_visible reader id) rows = None.
Proof.
  intros Habs. apply findFirst_None. intros b Hb.
  rewrite matches_where_visible, bool_decide_eq_false_2; [done|by apply Habs].
Qed.

Lemma owned_lookup_absent (rows : list File.t) user id :
  (∀ g, g ∈ rows → File.id g ≠ id) →
  Prisma.findFirst (where_owned user id) rows = None.
Proof.
  intros Habs. apply findFirst_None. intros b Hb.
  rewrite matches_where_owned, bool_decide_eq_false_2; [done|by apply Habs].
Qed.

(** A folder reference resolves for a user when a folder with that
    identifier is theirs. *)
Lemma folder_lookup_None d user folderId :
  Prisma.findFirst (where_folder user folderId) (folders d) = None ↔
  ∀ g, g ∈ folders d → Folder.id g = folderId → Folder.userId g ≠ User.id user.
Proof.
  rewrite findFirst_None. split.
  - intros H g Hg Hid Hu. specialize (H g Hg).
    rewrite matches_where_folder, !bool_decide_eq_true_2 in H by done. done.
  - intros H g Hg. rewrite matches_where_folder.
    destruct (bool_decide_reflect (Folder.id g = folderId)) as [Hid|]; [|done].
    rewrite bool_decide_eq_false_2; [done|by apply H].
Qed.

Lemma folder_lookup_Some d user folderId g :
  Prisma.findFirst (where_folder user folderId) (folders d) = Some g →
  g ∈ folders d ∧ Folder.id g = folderId ∧ Folder.userId g = User.id user.
Proof.
  intros [Hg Hm]%findFirst_Some. rewrite matches_where_folder in Hm.
  apply andb_true_iff in Hm as [?%bool_decide_eq_true ?%bool_decide_eq_true].
  done.
Qed.

End Lookups.

(** ** Reading and downloading *)

Section Access.
Context {Disk : Type}.
Variable unlink : string → Disk → option string * Disk.
Variable unauthenticated : Response.
Implicit Types (w : World Disk) (F : File.t) (user : User.t)
  (reader : option User.t).

(** The info page a reader is shown for a file that the lookup returns. *)
Lemma get_info_visible w reader F :
  wf (db w) → F ∈ files (db w) →
  get_info reader (File.id F) w =
  (if owns reader F || File.isPublic F
   then Render 200 "files/info"
          (Info (File.originalName F) F
             (match reader with
              | Some u =>
                  if owns reader F
                  then Prisma.findMany
                         (Prisma.equals Folder.userId (Some (User.id u)))
                         name_asc (folders (db w))
                  else []
              | None => []
              end) reader (owns reader F))
   else not_found_page, w).
Proof.
  intros Hwf HF. unfold get_info. rewrite visible_lookup by done.
  destruct (owns reader F || File.isPublic F); [|done].
  by destruct reader.
Qed.

Lemma get_download_visible w reader F :
  wf (db w) → F ∈ files (db w) →
  get_download reader (File.id F) w =
  (if owns reader F || File.isPublic F
   then Download (File.path F) (File.originalName F)
   else not_found_page, w).
Proof.
  intros Hwf HF. unfold get_download. rewrite visible_lookup by done.
  by destruct (owns reader F || File.isPublic F).
Qed.

(** C1.  For a request without a user, the info page and the download of a
    stored file F are served exactly when F is public; for a private F both
    routes answer with the 404 page, and nothing is changed. *)
Theorem anonymous_reads_public_only w F :
  wf (db w) → F ∈ files (db w) →
  get_info None (File.id F) w =
    (if File.isPublic F
     then Render 200 "files/info" (Info (File.originalName F) F [] None false)
     else not_found_page, w)
  ∧ get_download None (File.id F) w =
    (if File.isPublic F
     then Download (File.path F) (File.originalName F)
     else not_found_page, w).
Proof.
  intros Hwf HF. split.
  - by rewrite get_info_visible.
  - by rewrite get_download_visible.
Qed.

(** C2.  When the owner of F asks to move it to a folder reference that is
    given and does not resolve to a folder of theirs (no folder has the
    identifier, or the folder is another user's), the route answers with the
    notice "Selected folder not found" and leaves the world, hence every
    column of F, as it was. *)
Theorem assign_unresolved_folder_rejected w user F (folderId : string) :
  F ∈ files (db w) → File.userId F = User.id user →
  folderId ≠ ""%string →
  (∀ g, g ∈ folders (db w) → Folder.id g = folderId →
        Folder.userId g ≠ User.id user) →
  assign_folder unauthenticated (Some user) (File.id F) (Some folderId) w =
    (Redirect [("error", "Selected folder not found")] (ToFile (File.id F)), w)%string.
Proof.
  intros HF Hown Hne Hfolder. unfold assign_folder, ensureAuthenticated.
  destruct (owned_lookup_some (db w) user F HF Hown) as (G & -> & _ & _).
  cbn. rewrite decide_False by done.
  apply folder_lookup_None in Hfolder. by rewrite Hfolder.
Qed.

(** What [file_delete] leaves. *)
Lemma file_delete_gone id d g : g ∈ files (file_delete id d) → File.id g ≠ id.
Proof. cbn. by intros [? _]%list_elem_of_filter. Qed.

(** The world of a successful delete, whatever [unlink] did. *)
Lemma delete_file_owner w user F :
  F ∈ files (db w) → File.userId F = User.id user →
  ∃ G d log,
    Prisma.findFirst (where_owned user (File.id F)) (files (db w)) = Some G
    ∧ File.id G = File.id F
    ∧ delete_file unlink unauthenticated (Some user) (File.id F) w =
        (Json 200 JSuccess, mkWorld (file_delete (File.id F) (db w)) d log).
Proof.
  intros HF Hown. unfold delete_file, ensureAuthenticated.
  destruct (owned_lookup_some (db w) user F HF Hown) as (G & HG & _ & Hid).
  rewrite HG, Hid.
  destruct (unlink (File.path G) (disk w)) as [[e|] d]; eauto 10.
Qed.

(** When [unlink] throws, the error goes to the console and the record goes
    all the same. *)
Lemma delete_file_unlink_throws w user F e d :
  wf (db w) → F ∈ files (db w) → File.userId F = User.id user →
  unlink (File.path F) (disk w) = (Some e, d) →
  delete_file unlink unauthenticated (Some user) (File.id F) w =
    (Json 200 JSuccess,
     mkWorld (file_delete (File.id F) (db w)) d
       (console w ++ [("Error deleting file from filesystem:", e)]))%string.
Proof.
  intros Hwf HF Hown Hthrow. unfold delete_file, ensureAuthenticated.
  rewrite owned_lookup, bool_decide_eq_true_2 by done. by rewrite Hthrow.
Qed.

(** C3.  A delete by the owner of F answers [{ success: true }] and leaves no
    record with F's identifier, whatever [unlink] does, a throw included:
    the files left are those with another identifier, and the info page and
    the download of that identifier are then the 404 page for every reader. *)
Theorem delete_removes_record_despite_unlink w user F :
  F ∈ files (db w) → File.userId F = User.id user →
  let after := delete_file unlink unauthenticated (Some user) (File.id F) w in
  after.1 = Json 200 JSuccess
  ∧ files (db after.2) = filter (λ g, File.id g ≠ File.id F) (files (db w))
  ∧ (∀ g, g ∈ files (db after.2) → File.id g ≠ File.id F)
  ∧ (∀ reader, (get_info reader (File.id F) after.2).1 = not_found_page
               ∧ (get_download reader (File.id F) after.2).1 = not_found_page).
Proof.
  intros HF Hown.
  destruct (delete_file_owner w user F HF Hown) as (G & d & log & _ & _ & ->).
  cbn. split; [done|]. split; [done|].
  assert (∀ g, g ∈ filter (λ g, File.id g ≠ File.id F) (files (db w)) →
               File.id g ≠ File.id F) as Hgone.
  { by intros g [? _]%list_elem_of_filter. }
  split; [done|]. intros reader.
  unfold get_info, get_download. cbn.
  by rewrite visible_lookup_absent.
Qed.

End Access.

(** ** Owners, other users, and what a refusal gives away *)

Section Rights.
Context {Disk : Type}.
Variable unlink : string → Disk → option string * Disk.
Variable unauthenticated : Response.
Implicit Types (w : World Disk) (F : File.t) (P : User.t)
  (reader : option User.t).

Lemma delete_file_not_owned w P F :
  wf (db w) → F ∈ files (db w) → File.userId F ≠ User.id P →
  delete_file unlink unauthenticated (Some P) (File.id F) w =
    (Json 404 (JError "File not found"), w).
Proof.
  intros Hwf HF Hnot. unfold delete_file, ensureAuthenticated.
  by rewrite owned_lookup, bool_decide_eq_false_2.
Qed.

Lemma assign_folder_not_owned w P F folderId :
  wf (db w) → F ∈ files (db w) → File.userId F ≠ User.id P →
  assign_folder unauthenticated (Some P) (File.id F) folderId w =
    (Redirect [("error", "File not found")] ToFiles, w)%string.
Proof.
  intros Hwf HF Hnot. unfold assign_folder, ensureAuthenticated.
  by rewrite owned_lookup, bool_decide_eq_false_2.
Qed.

Lemma assign_folder_owner w P F folderId :
  wf (db w) → F ∈ files (db w) → File.userId F = User.id P →
  resolves (db w) P folderId →
  assign_folder unauthenticated (Some P) (File.id F) folderId w =
    (Redirect [("success", "File moved successfully")] (ToFile (File.id F)),
     set_db (file_update (File.id F) (truthy folderId) (db w)) w)%string.
Proof.
  intros Hwf HF Hown Hres. unfold assign_folder, ensureAuthenticated.
  rewrite owned_lookup, bool_decide_eq_true_2 by done.
  unfold resolves in Hres. destruct (truthy folderId) as [id|]; [|done].
  destruct (Prisma.findFirst _ (folders (db w))) eqn:E; [done|].
  destruct Hres as (g & Hg & Hid & Hu).
  pose proof (proj1 (folder_lookup_None (db w) P id) E g Hg Hid). done.
Qed.

Lemma file_update_row d F folderId :
  F ∈ files d → File.with_folderId folderId F ∈ files (file_update (File.id F) folderId d).
Proof.
  intros HF. cbn. apply list_elem_of_fmap. exists F. split; [|done].
  by rewrite decide_True.
Qed.

(** C4.  Let F be a stored file and P an authenticated user.  If P owns F,
    the info page and the download are served and a delete and a move (to no
    folder or to a folder of P's) are carried out, whether F is public or
    not.  If P does not own F, the info page and the download are served
    exactly when F is public, and a delete and a move answer "File not found"
    and change nothing. *)
Theorem owner_rights_and_others w P F :
  wf (db w) → F ∈ files (db w) →
  (File.userId F = User.id P →
     (∃ folders, (get_info (Some P) (File.id F) w).1 =
        Render 200 "files/info"
          (Info (File.originalName F) F folders (Some P) true))
     ∧ (get_download (Some P) (File.id F) w).1 =
         Download (File.path F) (File.originalName F)
     ∧ (let after := delete_file unlink unauthenticated (Some P) (File.id F) w in
        after.1 = Json 200 JSuccess ∧ F ∉ files (db after.2))
     ∧ (∀ folderId, resolves (db w) P folderId →
        let after := assign_folder unauthenticated (Some P) (File.id F) folderId w in
        after.1 = Redirect [("success", "File moved successfully")]
                    (ToFile (File.id F))
        ∧ File.with_folderId (truthy folderId) F ∈ files (db after.2)))
  ∧ (File.userId F ≠ User.id P →
     get_info (Some P) (File.id F) w =
       (if File.isPublic F
        then Render 200 "files/info"
               (Info (File.originalName F) F [] (Some P) false)
        else not_found_page, w)
     ∧ get_download (Some P) (File.id F) w =
       (if File.isPublic F
        then Download (File.path F) (File.originalName F)
        else not_found_page, w)
     ∧ delete_file unlink unauthenticated (Some P) (File.id F) w =
         (Json 404 (JError "File not found"), w)
     ∧ (∀ folderId,
        assign_folder unauthenticated (Some P) (File.id F) folderId w =
          (Redirect [("error", "File not found")] ToFiles, w)))%string.
Proof.
  intros Hwf HF. split.
  - intros Hown.
    assert (owns (Some P) F = true) as Ho by (by apply bool_decide_eq_true_2).
    split; [|split; [|split]].
    + rewrite get_info_visible, Ho by done. cbn. eauto.
    + by rewrite get_download_visible, Ho.
    + destruct (delete_file_owner unlink unauthenticated w P F HF Hown)
        as (G & d & log & _ & _ & ->).
      cbn. split; [done|]. intros Hin%list_elem_of_filter. by destruct Hin.
    + intros folderId Hres. rewrite assign_folder_owner by done. cbn.
      split; [done|].
      apply (file_update_row (db w) F (truthy folderId) HF).
  - intros Hnot.
    assert (owns (Some P) F = false) as Ho by (by apply bool_decide_eq_false_2).
    split; [|split; [|split]].
    + rewrite get_info_visible, Ho by done. cbn. by destruct (File.isPublic F).
    + by rewrite get_download_visible, Ho.
    + by apply delete_file_not_owned.
    + intros folderId. by apply assign_folder_not_owned.
Qed.

(** C5.  Let F be stored in [w1], let the reader not be its owner, and let
    [w2] hold no file with F's identifier.  Then each route answers in [w1]
    as it does in [w2] and changes neither world: delete and move answer
    "File not found" to every user (and what the guard answers when there is
    no user), and, F being private, the info page and the download are the
    404 page. *)
Theorem refusal_is_absence reader F (w1 w2 : World Disk) folderId :
  wf (db w1) → F ∈ files (db w1) → owns reader F = false →
  (∀ g, g ∈ files (db w2) → File.id g ≠ File.id F) →
  (delete_file unlink unauthenticated reader (File.id F) w1 =
     (refused unauthenticated reader (Json 404 (JError "File not found")), w1)
   ∧ delete_file unlink unauthenticated reader (File.id F) w2 =
     (refused unauthenticated reader (Json 404 (JError "File not found")), w2))
  ∧ (assign_folder unauthenticated reader (File.id F) folderId w1 =
       (refused unauthenticated reader (Redirect [("error", "File not found")] ToFiles), w1)
     ∧ assign_folder unauthenticated reader (File.id F) folderId w2 =
       (refused unauthenticated reader (Redirect [("error", "File not found")] ToFiles), w2))
  ∧ (File.isPublic F = false →
     (get_info reader (File.id F) w1 = (not_found_page, w1)
      ∧ get_info reader (File.id F) w2 = (not_found_page, w2))
     ∧ (get_download reader (File.id F) w1 = (not_found_page, w1)
        ∧ get_download reader (File.id F) w2 = (not_found_page, w2)))%string.
Proof.
  intros Hwf HF Ho Habs. split; [|split].
  - destruct reader as [P|]; [|done]. cbn. split.
    + apply delete_file_not_owned; [done..|]. by apply bool_decide_eq_false in Ho.
    + unfold delete_file, ensureAuthenticated. by rewrite owned_lookup_absent.
  - destruct reader as [P|]; [|done]. cbn. split.
    + apply assign_folder_not_owned; [done..|]. by apply bool_decide_eq_false in Ho.
    + unfold assign_folder, ensureAuthenticated. by rewrite owned_lookup_absent.
  - intros Hpriv. split; split.
    + by rewrite get_info_visible, Ho, Hpriv.
    + unfold get_info. by rewrite visible_lookup_absent.
    + by rewrite get_download_visible, Ho, Hpriv.
    + unfold get_download. by rewrite visible_lookup_absent.
Qed.

End Rights.

(** ** Uploading *)

Section Uploading.
Context {Disk : Type}.
Variable unauthenticated : Response.
Implicit Types (w : World Disk) (P : User.t) (req : Upload.req).

(** An accepted upload appends one row, filed under the requested folder
    when that is a folder of the uploader and unfiled otherwise. *)
Lemma post_upload_accepted w P now req file :
  Upload.errors req = [] → Upload.uploaded req = Some file →
  ∃ folderId,
    post_upload unauthenticated (Some P) now req w =
      (Redirect [("success", "File uploaded successfully!")] ToFiles,
       mkWorld (mkDb (files (db w) ++ [uploaded_row w P now req file folderId])
                  (folders (db w)) (nextFileId (db w) + 1))
         (disk w) (console w))%string
    ∧ (folderId = None
       ∨ ∃ g, g ∈ folders (db w) ∧ folderId = Some (Folder.id g)
              ∧ Folder.userId g = User.id P)
    ∧ (∀ id, Upload.folderId req = Some id →
         (∀ g, g ∈ folders (db w) → Folder.id g = id →
               Folder.userId g ≠ User.id P) →
         folderId = None).
Proof.
  intros Herr Hfile. unfold post_upload, ensureAuthenticated.
  rewrite Herr, Hfile.
  destruct (truthy (Upload.folderId req)) as [id|] eqn:Et.
  - destruct (Prisma.findFirst (where_folder P id) (folders (db w))) as [g|] eqn:Ef.
    + exists (Some id). split; [done|]. split.
      * right. apply folder_lookup_Some in Ef as (? & Hid & ?).
        exists g. by rewrite Hid.
      * intros id' Hid' Hnone. exfalso.
        rewrite Hid' in Et. cbn in Et. case_decide; [done|]. simplify_eq.
        apply folder_lookup_Some in Ef as (Hg & Hid & Hu). by apply (Hnone g).
    + exists None. split; [done|]. split; [by left|done].
  - exists None. split; [done|]. split; [by left|done].
Qed.

(** A request that is turned away stores nothing. *)
Lemma post_upload_rejected w reader now req :
  reader = None ∨ Upload.errors req ≠ [] ∨ Upload.uploaded req = None →
  (post_upload unauthenticated reader now req w).2 = w.
Proof.
  unfold post_upload, ensureAuthenticated. intros Hrej.
  destruct reader as [P|]; [|done].
  destruct (Upload.errors req) as [|e errs]; [|done].
  destruct (Upload.uploaded req); [|done].
  destruct Hrej as [?|[?|?]]; done.
Qed.

(** C6.  An upload by a user whose folder field names no folder of theirs
    (no folder has the identifier, or it is another user's) is accepted like
    any other: the answer is the success notice and the row that is stored
    has no folder. *)
Theorem upload_unresolved_folder_unfiled w P now req file (folderId : string) :
  Upload.errors req = [] → Upload.uploaded req = Some file →
  Upload.folderId req = Some folderId →
  (∀ g, g ∈ folders (db w) → Folder.id g = folderId →
        Folder.userId g ≠ User.id P) →
  let after := post_upload unauthenticated (Some P) now req w in
  after.1 = Redirect [("success", "File uploaded successfully!")] ToFiles
  ∧ files (db after.2) = files (db w) ++ [uploaded_row w P now req file None]
  ∧ File.folderId (uploaded_row w P now req file None) = None.
Proof.
  intros Herr Hfile Hreq Hnone.
  destruct (post_upload_accepted w P now req file Herr Hfile)
    as (fid & -> & _ & Hfid).
  rewrite (Hfid folderId Hreq Hnone). done.
Qed.

(** The folder field of such an upload might as well be absent. *)
Lemma upload_unresolved_folder_ignored w P now req (folderId : string) :
  Upload.folderId req = Some folderId →
  (∀ g, g ∈ folders (db w) → Folder.id g = folderId →
        Folder.userId g ≠ User.id P) →
  post_upload unauthenticated (Some P) now req w =
  post_upload unauthenticated (Some P) now (Upload.with_folderId None req) w.
Proof.
  intros Hreq Hnone. unfold post_upload, ensureAuthenticated. cbn.
  destruct (Upload.errors req); [|done].
  destruct (Upload.uploaded req); [|done].
  rewrite Hreq. cbn. case_decide; [done|].
  apply folder_lookup_None in Hnone. by rewrite Hnone.
Qed.

(** C10.  A file that an upload adds to the store belongs to the user of the
    request and is public exactly when the [isPublic] field is the text
    "true"; and an accepted upload does add such a file. *)
Theorem upload_owner_and_visibility w reader now req :
  let after := post_upload unauthenticated reader now req w in
  (∀ F, F ∈ files (db after.2) → F ∉ files (db w) →
     ∃ P, reader = Some P ∧ File.userId F = User.id P
          ∧ (File.isPublic F = true ↔ Upload.isPublic req = Some "true"%string))
  ∧ (∀ P file, reader = Some P → Upload.errors req = [] →
       Upload.uploaded req = Some file →
       ∃ F, files (db after.2) = files (db w) ++ [F]
            ∧ File.userId F = User.id P
            ∧ (File.isPublic F = true ↔ Upload.isPublic req = Some "true"%string)).
Proof.
  cbn. split.
  - intros F Hafter Hbefore.
    destruct reader as [P|];
      [|by rewrite post_upload_rejected in Hafter by auto].
    destruct (Upload.errors req) as [|e errs] eqn:Herr;
      [|by rewrite post_upload_rejected in Hafter by (rewrite Herr; auto)].
    destruct (Upload.uploaded req) as [file|] eqn:Hfile;
      [|by rewrite post_upload_rejected in Hafter by auto].
    destruct (post_upload_accepted w P now req file Herr Hfile)
      as (fid & Hpost & _ & _).
    rewrite Hpost in Hafter. cbn in Hafter.
    apply elem_of_app in Hafter as [?| Hnew%list_elem_of_singleton]; [done|subst F].
    exists P. split; [done|]. split; [done|]. cbn. apply bool_decide_eq_true.
  - intros P file -> Herr Hfile.
    destruct (post_upload_accepted w P now req file Herr Hfile)
      as (fid & -> & _ & _).
    eexists. split; [done|]. split; [done|]. cbn. apply bool_decide_eq_true.
Qed.

End Uploading.

(** ** Deleting twice, and the two listings *)

Section DeleteAndList.
Context {Disk : Type}.
Variable unlink : string → Disk → option string * Disk.
Variable unauthenticated : Response.
Implicit Types (w : World Disk) (F : File.t) (P : User.t).

(** C8.  When the owner of F deletes it twice, the first request answers
    [{ success: true }], the second answers 404 "File not found" (the lookup
    finds no record), and the second leaves the world as the first left it. *)
Theorem delete_twice w P F :
  F ∈ files (db w) → File.userId F = User.id P →
  let first := delete_file unlink unauthenticated (Some P) (File.id F) w in
  let second := delete_file unlink unauthenticated (Some P) (File.id F) first.2 in
  first.1 = Json 200 JSuccess
  ∧ second.1 = Json 404 (JError "File not found")
  ∧ second.2 = first.2.
Proof.
  intros HF Hown.
  destruct (delete_file_owner unlink unauthenticated w P F HF Hown)
    as (G & d & log & _ & _ & ->).
  cbn. split; [done|].
  unfold delete_file, ensureAuthenticated.
  rewrite owned_lookup_absent; [done|].
  apply file_delete_gone.
Qed.

(** C9.  The public listing holds the public files and the listing of a user
    holds that user's files: each is a rearrangement of exactly those rows
    of the table, none left out and none twice, in which no file comes
    before a file uploaded later. *)
Theorem listings_filtered_and_ordered w P :
  ∃ public owned,
    get_public w =
      (Render 200 "files/public" (Files "Public Files" public None), w)
    ∧ public ≡ₚ filter (λ f, File.isPublic f = true) (files (db w))
    ∧ StronglySorted uploadedAt_desc public
    ∧ get_index unauthenticated (Some P) w =
      (Render 200 "files/index" (Files "My Files" owned (Some P)), w)
    ∧ owned ≡ₚ filter (λ f, File.userId f = User.id P) (files (db w))
    ∧ StronglySorted uploadedAt_desc owned.
Proof.
  eexists _, _. split; [reflexivity|]. split; [|split].
  - rewrite findMany_Permutation. apply reflexive_eq, list_filter_iff.
    intros f. cbn. by rewrite bool_decide_eq_true.
  - apply findMany_Sorted; apply _.
  - split; [reflexivity|]. split.
    + rewrite findMany_Permutation. apply reflexive_eq, list_filter_iff.
      intros f. cbn. by rewrite bool_decide_eq_true.
    + apply findMany_Sorted; apply _.
Qed.

End DeleteAndList.

(** ** Files stay in folders of their owner *)

Lemma NoDup_key_filter {A B} (key : A → B) (P : A → Prop)
    `{∀ a, Decision (P a)} (l : list A) :
  NoDup (key <$> l) → NoDup (key <$> filter P l).
Proof.
  induction l as [|x l IH]; [done|].
  rewrite fmap_cons. intros [Hx Hnd]%NoDup_cons.
  rewrite filter_cons. case_decide; [|by apply IH].
  rewrite fmap_cons. apply NoDup_cons. split; [|by apply IH].
  intros (y & Hk & Hy)%list_elem_of_fmap. apply Hx.
  apply list_elem_of_filter in Hy as [_ Hy].
  rewrite Hk. by apply list_elem_of_fmap_2.
Qed.

Lemma wf_file_create now data d : wf d → wf (file_create now data d).
Proof.
  intros [Hids Hseq Hfolders]. split; cbn; [| |done].
  - rewrite fmap_app. apply NoDup_app. split; [done|]. split.
    + intros x (f & -> & Hf)%list_elem_of_fmap Hx.
      apply list_elem_of_singleton in Hx. cbn in Hx.
      specialize (Hseq f Hf). lia.
    + apply NoDup_singleton.
  - intros f [Hf| Hf%list_elem_of_singleton]%elem_of_app.
    + specialize (Hseq f Hf). lia.
    + subst f. cbn. lia.
Qed.

Lemma wf_file_delete id d : wf d → wf (file_delete id d).
Proof.
  intros [Hids Hseq Hfolders]. split; cbn; [| |done].
  - by apply NoDup_key_filter.
  - intros f [_ Hf]%list_elem_of_filter. by apply Hseq.
Qed.

Lemma wf_file_update id folderId d : wf d → wf (file_update id folderId d).
Proof.
  intros [Hids Hseq Hfolders]. split; cbn; [| |done].
  - rewrite <- list_fmap_compose.
    erewrite list_fmap_ext; [exact Hids|].
    intros i f _. cbn. by case_decide.
  - intros f' (f & -> & Hf)%list_elem_of_fmap.
    specialize (Hseq f Hf). by case_decide.
Qed.

Section Invariant.
Context {Disk : Type}.
Variable unlink : string → Disk → option string * Disk.
Variable unauthenticated : Response.
Implicit Types (w : World Disk) (r : Request) (rs : list Request).

Lemma handle_db_step r w : db_step (db w) (db (handle unlink unauthenticated r w).2).
Proof.
  destruct r as [|user|user folder|user now req|user id|user id|user id
                 |user id folderId]; cbn.
  - apply step_none.
  - destruct user; apply step_none.
  - destruct user; apply step_none.
  - (* upload *)
    destruct user as [P|]; [cbn|apply step_none].
    destruct (Upload.errors req); [|apply step_none].
    destruct (Upload.uploaded req) as [file|]; [|apply step_none].
    cbn. apply step_create. cbn. intros fid Hfid.
    destruct (truthy (Upload.folderId req)) as [id|]; [|done].
    destruct (Prisma.findFirst _ _) as [g|] eqn:Ef; [|done].
    simplify_eq. apply folder_lookup_Some in Ef as (? & ? & ?). eauto.
  - (* download *)
    unfold get_download. destruct (Prisma.findFirst _ _); apply step_none.
  - (* delete *)
    destruct user as [P|]; [cbn|apply step_none].
    destruct (Prisma.findFirst _ _) as [G|]; [|apply step_none].
    destruct (unlink _ _) as [[e|] d]; cbn; apply step_delete.
  - (* info *)
    unfold get_info. destruct (Prisma.findFirst _ _); apply step_none.
  - (* move *)
    destruct user as [P|]; [cbn|apply step_none].
    destruct (Prisma.findFirst _ (files _)) as [G|] eqn:EG; [|apply step_none].
    apply findFirst_Some in EG as [HG Hm]. rewrite matches_where_owned in Hm.
    apply andb_true_iff in Hm as [_ Hown%bool_decide_eq_true].
    destruct (truthy folderId) as [fid|].
    + destruct (Prisma.findFirst _ (folders _)) as [g|] eqn:Ef; [|apply step_none].
      cbn. apply step_update; [done|]. intros ? [= <-].
      apply folder_lookup_Some in Ef as (? & ? & ?). exists g. by rewrite Hown.
    + cbn. apply step_update; [done|]. done.
Qed.

Lemma db_step_wf d d' : db_step d d' → wf d → wf d'.
Proof.
  destruct 1; auto using wf_file_create, wf_file_delete, wf_file_update.
Qed.

Lemma db_step_folders d d' : db_step d d' → folders d' = folders d.
Proof. by destruct 1. Qed.

Lemma db_step_filed d d' :
  db_step d d' → wf d → filed_with_owner d → filed_with_owner d'.
Proof.
  intros Hstep Hwf Hinv.
  destruct Hstep as [|now data Hdata|id|F folderId HF Hfolder]; [done|..].
  - intros f fid [Hf| Hf%list_elem_of_singleton]%elem_of_app Hfid.
    + by apply Hinv.
    + subst f. cbn in *. by apply Hdata.
  - intros f fid [_ Hf]%list_elem_of_filter Hfid. by apply Hinv.
  - intros f' fid (f & -> & Hf)%list_elem_of_fmap Hfid. cbn.
    case_decide as Hid; [|by apply Hinv].
    rewrite (file_of_id d f F) in * by done. cbn in *.
    by apply Hfolder.
Qed.

Lemma serve_cons r rs w :
  serve unlink unauthenticated (r :: rs) w =
  serve unlink unauthenticated rs (handle unlink unauthenticated r w).2.
Proof. done. Qed.

(** The routes of this router never write to the folders. *)
Lemma serve_keeps_folders rs w :
  folders (db (serve unlink unauthenticated rs w)) = folders (db w).
Proof.
  revert w. induction rs as [|r rs IH]; intros w; [done|].
  rewrite serve_cons, IH. apply db_step_folders, handle_db_step.
Qed.

(** A store without files is a place to start from. *)
Lemma no_files_filed fs n : filed_with_owner (mkDb [] fs n).
Proof. intros f fid Hf. by apply elem_of_nil in Hf. Qed.

(** C7.  Let the database satisfy its key constraints and let every filed
    file lie in a folder of its owner.  After any sequence of requests to the
    router both still hold: every file with a folder has it among the folders
    of its own owner, and no folder with that identifier is another user's. *)
Theorem files_stay_with_owner rs w :
  wf (db w) → filed_with_owner (db w) →
  let w' := serve unlink unauthenticated rs w in
  wf (db w')
  ∧ filed_with_owner (db w')
  ∧ (∀ f folderId g, f ∈ files (db w') → File.folderId f = Some folderId →
       g ∈ folders (db w') → Folder.id g = folderId →
       Folder.userId g = File.userId f).
Proof.
  cbn. revert w. induction rs as [|r rs IH]; intros w Hwf Hinv.
  - cbn. split; [done|]. split; [done|].
    intros f fid g Hf Hfid Hg Hid.
    destruct (Hinv f fid Hf Hfid) as (g' & Hg' & Hid' & <-).
    f_equal. destruct Hwf as [_ _ Hfolders].
    apply (key_unique Folder.id (folders (db w))); [done..|congruence].
  - rewrite serve_cons.
    pose proof (handle_db_step r w) as Hstep.
    apply IH; eauto using db_step_wf, db_step_filed.
Qed.

End Invariant.

(** ** The properties on the sample deployment *)

Import Sample.

Lemma sample_wf : wf database.
Proof.
  split; cbn.
  - by apply (bool_decide_unpack _).
  - apply Forall_forall. repeat constructor.
  - by apply (bool_decide_unpack _).
Qed.

Lemma sample_filed : filed_with_owner database.
Proof.
  intros f fid Hf Hfid. cbn in Hf.
  repeat (apply elem_of_cons in Hf as [->|Hf]); try by apply elem_of_nil in Hf.
  all: cbn in Hfid; simplify_eq.
  exists g1. split; [by left|done].
Qed.

Lemma anonymous_reads_public_only_witness :
  wf (db world) ∧ f1 ∈ files (db world)
  ∧ get_info None 1 world = (not_found_page, world)
  ∧ get_download None 1 world = (not_found_page, world).
Proof.
  split; [exact sample_wf|]. split; [by left|].
  apply (anonymous_reads_public_only world f1); [exact sample_wf|by left].
Defined.

Example anonymous_reads_public_file :
  (get_info None 2 world).1 = Render 200 "files/info" (Info "b.png" f2 [] None false)
  ∧ (get_download None 2 world).1 = Download "uploads/200-2-b.png" "b.png".
Proof. by vm_compute. Qed.

Lemma assign_unresolved_folder_rejected_witness :
  f1 ∈ files (db world) ∧ File.userId f1 = User.id alice
  ∧ assign_folder login (Some alice) 1 (Some "g2"%string) world =
      (Redirect [("error", "Selected folder not found")] (ToFile 1), world)%string.
Proof.
  split; [by left|]. split; [done|].
  apply (assign_unresolved_folder_rejected login world alice f1 "g2");
    [by left|done|done|].
  intros g Hg Hid. cbn in Hg.
  repeat (apply elem_of_cons in Hg as [->|Hg]); try by apply elem_of_nil in Hg.
  all: done.
Defined.

(** An empty folder field is no reference: the file is unfiled. *)
Example assign_empty_folder_unfiles :
  (assign_folder login (Some alice) 2 (Some ""%string) world).1 =
    Redirect [("success", "File moved successfully")] (ToFile 2)
  ∧ File.with_folderId None f2
    ∈ files (db (assign_folder login (Some alice) 2 (Some ""%string) world).2).
Proof. split; [done|]. cbn. right. by left. Qed.

Lemma delete_removes_record_despite_unlink_witness :
  f1 ∈ files (db world) ∧ File.userId f1 = User.id alice
  ∧ unlink_paths (File.path f1) (disk world) =
      (Some "ENOENT: no such file or directory"%string, disk world)
  ∧ (delete_file unlink_paths login (Some alice) 1 world).1 = Json 200 JSuccess
  ∧ files (db (delete_file unlink_paths login (Some alice) 1 world).2) = [f2; f3]
  ∧ (get_info (Some alice) 1
       (delete_file unlink_paths login (Some alice) 1 world).2).1 = not_found_page.
Proof.
  split; [by left|]. split; [done|]. split; [done|].
  destruct (delete_removes_record_despite_unlink unlink_paths login world alice f1)
    as (Hok & Hfiles & _ & Hread); [by left|done|].
  split; [exact Hok|]. split; [exact Hfiles|]. exact (proj1 (Hread (Some alice))).
Defined.

Lemma owner_rights_and_others_witness :
  wf (db world) ∧ f1 ∈ files (db world)
  ∧ (get_download (Some alice) 1 world).1 = Download "uploads/100-1-a.txt" "a.txt"
  ∧ (delete_file unlink_paths login (Some alice) 1 world).1 = Json 200 JSuccess
  ∧ get_info (Some bob) 1 world = (not_found_page, world)
  ∧ delete_file unlink_paths login (Some bob) 1 world =
      (Json 404 (JError "File not found"), world).
Proof.
  split; [exact sample_wf|]. split; [by left|].
  destruct (owner_rights_and_others unlink_paths login world alice f1)
    as [Howner _]; [exact sample_wf|by left|].
  destruct (owner_rights_and_others unlink_paths login world bob f1)
    as [_ Hother]; [exact sample_wf|by left|].
  destruct (Howner eq_refl) as (_ & Hdown & [Hdel _] & _).
  destruct Hother as (Hinfo & _ & Hdel' & _); [done|].
  split; [exact Hdown|]. split; [exact Hdel|]. split; [exact Hinfo|exact Hdel'].
Defined.

Lemma refusal_is_absence_witness :
  wf (db world) ∧ f1 ∈ files (db world) ∧ owns (Some bob) f1 = false
  ∧ delete_file unlink_paths login (Some bob) 1 world =
      (Json 404 (JError "File not found"), world)
  ∧ delete_file unlink_paths login (Some bob) 1 (mkWorld (mkDb [] [] 1) [] []) =
      (Json 404 (JError "File not found"), mkWorld (mkDb [] [] 1) [] []).
Proof.
  split; [exact sample_wf|]. split; [by left|]. split; [done|].
  apply (refusal_is_absence unlink_paths login (Some bob) f1 world
           (mkWorld (mkDb [] [] 1) [] []) None);
    [exact sample_wf|by left|done|].
  intros g Hg. by apply elem_of_nil in Hg.
Defined.

Lemma upload_unresolved_folder_unfiled_witness :
  Upload.folderId (upload_to (Some "g1") None) = Some "g1"%string
  ∧ (post_upload login (Some bob) 300 (upload_to (Some "g1") None) world).1 =
      Redirect [("success", "File uploaded successfully!")] ToFiles
  ∧ files (db (post_upload login (Some bob) 300 (upload_to (Some "g1") None) world).2) =
      [f1; f2; f3;
       File.mk 4 "300-4-d.txt" "d.txt" "text/plain" 7 "uploads/300-4-d.txt"
         None false 2 None 300].
Proof.
  split; [done|].
  destruct (upload_unresolved_folder_unfiled login world bob 300
              (upload_to (Some "g1") None) blob "g1") as (Hok & Hfiles & _);
    [done|done|done| |by split].
  intros g Hg Hid. cbn in Hg.
  repeat (apply elem_of_cons in Hg as [->|Hg]); try by apply elem_of_nil in Hg.
  all: done.
Defined.

Lemma files_stay_with_owner_witness :
  wf (db world) ∧ filed_with_owner (db world)
  ∧ filed_with_owner
      (db (serve unlink_paths login
             [POST_upload (Some bob) 300 (upload_to (Some "g1") (Some "true"));
              POST_assign_folder (Some alice) 1 (Some "g2"%string);
              POST_assign_folder (Some bob) 3 (Some "g2"%string);
              DELETE_file (Some alice) 2] world)).
Proof.
  split; [exact sample_wf|]. split; [exact sample_filed|].
  apply (files_stay_with_owner unlink_paths login _ world sample_wf sample_filed).
Defined.

Example served_sample_folders :
  File.folderId <$>
    files (db (serve unlink_paths login
             [POST_upload (Some bob) 300 (upload_to (Some "g1") (Some "true"));
              POST_assign_folder (Some alice) 1 (Some "g2"%string);
              POST_assign_folder (Some bob) 3 (Some "g2"%string);
              DELETE_file (Some alice) 2] world))
  = [None; Some "g2"%string; None].
Proof. by vm_compute. Qed.

Lemma delete_twice_witness :
  f2 ∈ files (db world) ∧ File.userId f2 = User.id alice
  ∧ (delete_file unlink_paths login (Some alice) 2 world).1 = Json 200 JSuccess
  ∧ delete_file unlink_paths login (Some alice) 2
      (delete_file unlink_paths login (Some alice) 2 world).2 =
    (Json 404 (JError "File not found"),
     (delete_file unlink_paths login (Some alice) 2 world).2).
Proof.
  split; [by right; left|]. split; [done|].
  destruct (delete_twice unlink_paths login world alice f2)
    as (Hfirst & Hsecond & Hsame); [by right; left|done|].
  split; [exact Hfirst|].
  rewrite <- Hsame at 2. rewrite <- Hsecond. by apply surjective_pairing.
Defined.

Example sample_listings :
  (get_public world).1 = Render 200 "files/public" (Files "Public Files" [f2] None)
  ∧ (get_index login (Some alice) world).1 =
      Render 200 "files/index" (Files "My Files" [f2; f1] (Some alice))
  ∧ get_index login None world = (login, world).
Proof. by vm_compute. Qed.

Lemma upload_owner_and_visibility_witness :
  ∃ F, files (db (post_upload login (Some bob) 300
                    (upload_to None (Some "true")) world).2) = [f1; f2; f3; F]
       ∧ File.userId F = 2 ∧ File.isPublic F = true.
Proof.
  destruct (upload_owner_and_visibility login world (Some bob) 300
              (upload_to None (Some "true"))) as [_ Hcreated].
  destruct (Hcreated bob blob eq_refl eq_refl eq_refl) as (F & HF & Hown & Hpub).
  exists F. split; [exact HF|]. split; [exact Hown|]. by apply Hpub.
Defined.

(** Only the text "true" makes an upload public. *)
Example upload_isPublic_variants :
  let stored isPublic :=
    File.isPublic <$>
      last (files (db (post_upload login (Some bob) 300
                         (upload_to None isPublic) world).2)) in
  stored (Some "true"%string) = Some true
  ∧ stored None = Some false
  ∧ stored (Some "True"%string) = Some false
  ∧ stored (Some "1"%string) = Some false
  ∧ stored (Some "on"%string) = Some false.
Proof. by vm_compute. Qed.

(** * Further properties of the router *)

Section Frames.
Context {Disk : Type}.
Variable unlink : string → Disk → option string * Disk.
Variable unauthenticated : Response.
Implicit Types (w : World Disk) (r : Request) (rs : list Request)
  (F G : File.t) (P : User.t).

Lemma handle_get r w :
  is_get r = true → (handle unlink unauthenticated r w).2 = w.
Proof.
  destruct r as [|user|user folder|user now req|user id|user id|user id
                 |user id folderId]; cbn; try done; intros _.
  - by destruct user.
  - by destruct user.
  - unfold get_download. by destruct (Prisma.findFirst _ _).
  - unfold get_info. by destruct (Prisma.findFirst _ _).
Qed.


Lemma owned_found (rows : list File.t) P id G :
  Prisma.findFirst (where_owned P id) rows = Some G →
  G ∈ rows ∧ File.id G = id ∧ File.userId G = User.id P.
Proof.
  intros [HG Hm]%findFirst_Some. rewrite matches_where_owned in Hm.
  apply andb_true_iff in Hm as [?%bool_decide_eq_true ?%bool_decide_eq_true].
  done.
Qed.

Lemma not_owner_other_id d P F G :
  wf d → F ∈ files d → G ∈ files d → File.userId F = User.id P →
  owns (Some P) G = false → File.id G ≠ File.id F.
Proof.
  intros Hwf HF HG Hown Hnot Hid.
  rewrite (file_of_id d G F) in Hnot by done.
  cbn in Hnot. by rewrite bool_decide_eq_true_2 in Hnot.
Qed.

Lemma handle_keeps_others r w G :
  wf (db w) → owns (requester r) G = false →
  G ∈ files (db (handle unlink unauthenticated r w).2) ↔ G ∈ files (db w).
Proof.
  intros Hwf Hnot.
  destruct (is_get r) eqn:Hr; [by rewrite handle_get|].
  destruct r as [|user|user folder|user now req|user id|user id|user id
                 |user id folderId]; try done; cbn in Hnot |- *;
    (destruct user as [P|]; [cbn|done]).
  - (* upload *)
    destruct (Upload.errors req); [|done].
    destruct (Upload.uploaded req) as [file|]; [|done].
    cbn. rewrite elem_of_app, list_elem_of_singleton. split; [|by left].
    intros [?| ->]; [done|]. cbn in Hnot.
    by rewrite bool_decide_eq_true_2 in Hnot.
  - (* delete *)
    destruct (Prisma.findFirst _ _) as [F|] eqn:EF; [|done].
    apply owned_found in EF as (HF & _ & Hown).
    assert (files (db (match unlink (File.path F) (disk w) with
                       | (Some fsError, d) =>
                           mkWorld (db w) d
                             (console w ++
                              [("Error deleting file from filesystem:"%string, fsError)])
                       | (None, d) => mkWorld (db w) d (console w)
                       end)) = files (db w)) as Hsame
      by (by destruct (unlink _ _) as [[e|] d]).
    cbn. rewrite list_elem_of_filter, Hsame. split; [by intros [_ ?]|].
    intros HG. split; [|done]. by apply (not_owner_other_id (db w) P).
  - (* move *)
    destruct (Prisma.findFirst _ (files _)) as [F|] eqn:EF; [|done].
    apply owned_found in EF as (HF & _ & Hown).
    assert (∀ v, G ∈ files (file_update (File.id F) v (db w)) ↔ G ∈ files (db w))
      as Hupd.
    { intros v. cbn. rewrite list_elem_of_fmap. split.
      - intros (g & -> & Hg). case_decide as Hid; [|done].
        rewrite (file_of_id (db w) g F) in Hnot by done.
        cbn in Hnot. by rewrite bool_decide_eq_true_2 in Hnot.
      - intros HG. exists G. split; [|done].
        rewrite decide_False; [done|]. by apply (not_owner_other_id (db w) P). }
    destruct (truthy folderId) as [fid|]; [|by apply Hupd].
    destruct (Prisma.findFirst _ (folders _)); [by apply Hupd|done].
Qed.

(** X2.  Requests made by others than the owner of a row, or by nobody,
    neither remove nor alter the row, whatever they ask for: the row is in
    the table after the sequence exactly when it was there before. *)
Theorem others_cannot_touch rs w G :
  wf (db w) → Forall (λ r, owns (requester r) G = false) rs →
  G ∈ files (db (serve unlink unauthenticated rs w)) ↔ G ∈ files (db w).
Proof.
  intros Hwf Hrs. revert w Hwf.
  induction Hrs as [|r rs Hr _ IH]; intros w Hwf; [done|].
  rewrite serve_cons, IH.
  - by apply handle_keeps_others.
  - eapply db_step_wf; [apply handle_db_step|done].
Qed.

Lemma same_but_folder_update v F : same_but_folder F (File.with_folderId v F).
Proof. done. Qed.

Lemma db_step_sequence d d' : db_step d d' → nextFileId d ≤ nextFileId d'.
Proof. destruct 1; cbn; lia. Qed.

(** A row with an identifier that was handed out before a step descends from
    a row with that identifier and the same columns, the folder apart. *)
Lemma db_step_descends d d' F' :
  db_step d d' → wf d → F' ∈ files d' → File.id F' < nextFileId d →
  ∃ F, F ∈ files d ∧ File.id F = File.id F' ∧ same_but_folder F F'.
Proof.
  intros Hstep Hwf HF' Hold.
  destruct Hstep as [|now data Hdata|id|G folderId HG Hfolder].
  - by exists F'.
  - cbn in HF'. apply elem_of_app in HF' as [?| Hnew%list_elem_of_singleton].
    + by exists F'.
    + subst F'. cbn in Hold. lia.
  - cbn in HF'. apply list_elem_of_filter in HF' as [_ ?]. by exists F'.
  - cbn in HF'. apply list_elem_of_fmap in HF' as (g & -> & Hg).
    exists g. split; [done|]. by case_decide.
Qed.

Lemma serve_descends rs w F' :
  wf (db w) → F' ∈ files (db (serve unlink unauthenticated rs w)) →
  File.id F' < nextFileId (db w) →
  ∃ F, F ∈ files (db w) ∧ File.id F = File.id F' ∧ same_but_folder F F'.
Proof.
  revert w. induction rs as [|r rs IH]; intros w Hwf HF' Hold.
  - by exists F'.
  - rewrite serve_cons in HF'.
    pose proof (handle_db_step unlink unauthenticated r w) as Hstep.
    destruct (IH _ (db_step_wf _ _ Hstep Hwf) HF') as (F1 & HF1 & Hid1 & Hsame1).
    { pose proof (db_step_sequence _ _ Hstep). lia. }
    destruct (db_step_descends _ _ F1 Hstep Hwf HF1) as (F & HF & Hid & Hsame);
      [lia|].
    exists F. split; [done|]. split; [congruence|].
    unfold same_but_folder in *. congruence.
Qed.

(** X3.  Whatever requests are served, a file that is still stored has the
    owner, the visibility, the names, the type, the size, the blob path, the
    description and the upload time it had: only its folder can have
    changed, and an identifier is not given to another file. *)
Theorem columns_are_kept rs w F F' :
  wf (db w) → F ∈ files (db w) →
  F' ∈ files (db (serve unlink unauthenticated rs w)) →
  File.id F' = File.id F →
  same_but_folder F F'
  ∧ File.userId F' = File.userId F
  ∧ File.isPublic F' = File.isPublic F
  ∧ File.path F' = File.path F.
Proof.
  intros Hwf HF HF' Hid.
  destruct (serve_descends rs w F' Hwf HF') as (F0 & HF0 & Hid0 & Hsame).
  { rewrite Hid. by apply Hwf. }
  rewrite (file_of_id (db w) F0 F) in Hsame by (done || congruence).
  split; [done|]. unfold same_but_folder in Hsame.
  destruct F, F'. cbn in *. by simplify_eq.
Qed.

End Frames.

(** ** What a delete and a move do to the rest of the store *)

Section Effects.
Context {Disk : Type}.
Variable unlink : string → Disk → option string * Disk.
Variable unauthenticated : Response.
Implicit Types (w : World Disk) (F G : File.t) (P : User.t)
  (folderId : option string).

Lemma same_id_same_row d F G :
  wf d → F ∈ files d → G ∈ files d → (File.id G ≠ File.id F ↔ G ≠ F).
Proof.
  intros Hwf HF HG. split; [congruence|].
  intros Hne Hid. by apply Hne, (file_of_id d).
Qed.

(** X4.  The owner's delete removes the one row of the file and no other,
    keeps the order of the rest and the folders, calls [unlink] once, on the
    path of that row, and writes to the console exactly when that call
    throws. *)
Theorem delete_removes_exactly w P F :
  wf (db w) → F ∈ files (db w) → File.userId F = User.id P →
  let after := (delete_file unlink unauthenticated (Some P) (File.id F) w).2 in
  files (db after) = filter (λ g, File.id g ≠ File.id F) (files (db w))
  ∧ (∀ G, G ∈ files (db after) ↔ G ∈ files (db w) ∧ G ≠ F)
  ∧ folders (db after) = folders (db w)
  ∧ disk after = (unlink (File.path F) (disk w)).2
  ∧ console after =
      console w ++
      match (unlink (File.path F) (disk w)).1 with
      | Some fsError => [("Error deleting file from filesystem:"%string, fsError)]
      | None => []
      end.
Proof.
  intros Hwf HF Hown. cbn. unfold delete_file, ensureAuthenticated.
  rewrite owned_lookup, bool_decide_eq_true_2 by done.
  destruct (unlink (File.path F) (disk w)) as [[e|] d]; cbn.
  all: split; [done|]; split; [|by rewrite ?app_nil_r].
  all: intros G; rewrite list_elem_of_filter; split.
  all: try (intros [Hid HG]; split; [done|]; by apply (same_id_same_row (db w))).
  all: intros [HG Hne]; split; [|done]; by apply (same_id_same_row (db w)).
Qed.

(** X5.  The owner's move to a folder of theirs (or to none) rewrites the
    folder of that one row: the table after holds the re-filed row and,
    unchanged, every other row, and as many rows as before; the folders, the
    disk and the console are as they were. *)
Theorem move_rewrites_one_folder w P F folderId :
  wf (db w) → F ∈ files (db w) → File.userId F = User.id P →
  resolves (db w) P folderId →
  let after := (assign_folder unauthenticated (Some P) (File.id F) folderId w).2 in
  (∀ G, G ∈ files (db after) ↔
        G = File.with_folderId (truthy folderId) F ∨ (G ∈ files (db w) ∧ G ≠ F))
  ∧ length (files (db after)) = length (files (db w))
  ∧ folders (db after) = folders (db w)
  ∧ disk after = disk w ∧ console after = console w.
Proof.
  intros Hwf HF Hown Hres after. subst after.
  rewrite assign_folder_owner by done. cbn.
  split; [|by rewrite length_fmap].
  intros G. rewrite list_elem_of_fmap. split.
  - intros (g & -> & Hg). case_decide as Hid.
    + left. by rewrite (file_of_id (db w) g F).
    + right. split; [done|]. by apply (same_id_same_row (db w)).
  - intros [->|[HG Hne]].
    + exists F. by rewrite decide_True.
    + exists G. split; [|done]. rewrite decide_False; [done|].
      by apply (same_id_same_row (db w)).
Qed.

Lemma file_update_twice id v1 v2 d :
  file_update id v2 (file_update id v1 d) = file_update id v2 d.
Proof.
  unfold file_update. cbn. f_equal. rewrite <- list_fmap_compose.
  apply list_fmap_ext. intros i f _. cbn.
  destruct (decide (File.id f = id)) as [Hid|Hid]; cbn.
  - rewrite decide_True by done. by destruct f.
  - by rewrite decide_False.
Qed.

Lemma file_update_same d F :
  wf d → F ∈ files d → file_update (File.id F) (File.folderId F) d = d.
Proof.
  intros Hwf HF. destruct d as [fs gs n]. unfold file_update. cbn. f_equal.
  rewrite <- (list_fmap_id fs) at 2. apply list_fmap_ext.
  intros i g Hg%list_elem_of_lookup_2. cbn in *.
  case_decide as Hid; [|done].
  rewrite (file_of_id (mkDb fs gs n) g F) by done. by destruct F.
Qed.

Lemma set_db_same w : set_db (db w) w = w.
Proof. by destruct w. Qed.

Lemma assign_folder_twice w P F folderId1 folderId2 :
  wf (db w) → F ∈ files (db w) → File.userId F = User.id P →
  resolves (db w) P folderId1 → resolves (db w) P folderId2 →
  assign_folder unauthenticated (Some P) (File.id F) folderId2
    (assign_folder unauthenticated (Some P) (File.id F) folderId1 w).2 =
  assign_folder unauthenticated (Some P) (File.id F) folderId2 w.
Proof.
  intros Hwf HF Hown Hres1 Hres2.
  rewrite (assign_folder_owner unauthenticated w P F folderId1) by done.
  cbn [snd].
  pose proof (file_update_row (db w) F (truthy folderId1) HF) as HF1.
  pose proof (assign_folder_owner unauthenticated
                (set_db (file_update (File.id F) (truthy folderId1) (db w)) w) P
                (File.with_folderId (truthy folderId1) F) folderId2) as Hsecond.
  change (File.id (File.with_folderId (truthy folderId1) F))
    with (File.id F) in Hsecond.
  rewrite Hsecond; [|by apply wf_file_update|done|done|done].
  rewrite (assign_folder_owner unauthenticated w P F folderId2) by done.
  cbn. unfold set_db. cbn. by rewrite file_update_twice.
Qed.

(** X6.  Of two moves of a file by its owner, each to a folder of theirs or
    to none, the second decides: the answer and the world are those of the
    second move made alone.  In particular a move made twice is a move made
    once. *)
Theorem last_move_wins w P F folderId1 folderId2 :
  wf (db w) → F ∈ files (db w) → File.userId F = User.id P →
  resolves (db w) P folderId1 → resolves (db w) P folderId2 →
  assign_folder unauthenticated (Some P) (File.id F) folderId2
    (assign_folder unauthenticated (Some P) (File.id F) folderId1 w).2 =
  assign_folder unauthenticated (Some P) (File.id F) folderId2 w.
Proof. apply assign_folder_twice. Qed.

(** X7.  A move of a file to the folder it is in changes nothing, and a move
    to another folder followed by a move back restores the world: moves
    lose nothing. *)
Theorem move_and_back w P F folderId back :
  wf (db w) → F ∈ files (db w) → File.userId F = User.id P →
  resolves (db w) P folderId → resolves (db w) P back →
  truthy back = File.folderId F →
  (assign_folder unauthenticated (Some P) (File.id F) back w).2 = w
  ∧ (assign_folder unauthenticated (Some P) (File.id F) back
       (assign_folder unauthenticated (Some P) (File.id F) folderId w).2).2 = w.
Proof.
  intros Hwf HF Hown Hres Hback Hcur.
  assert ((assign_folder unauthenticated (Some P) (File.id F) back w).2 = w)
    as Hsame.
  { rewrite assign_folder_owner by done. cbn.
    by rewrite Hcur, file_update_same, set_db_same. }
  split; [done|]. by rewrite assign_folder_twice.
Qed.

End Effects.

(** ** Uploads, and what follows them *)

#[global] Instance name_asc_total : Total name_asc.
Proof. intros a b. apply String.leb_total. Qed.

Lemma filter_all {A} (P : A → Prop) `{∀ a, Decision (P a)} (l : list A) :
  (∀ a, a ∈ l → P a) → filter P l = l.
Proof.
  induction l as [|x l IH]; intros Hall; [done|].
  rewrite filter_cons_True by (apply Hall; left).
  f_equal. apply IH. intros a Ha. apply Hall. by right.
Qed.

Section AfterUpload.
Context {Disk : Type}.
Variable unlink : string → Disk → option string * Disk.
Variable unauthenticated : Response.
Implicit Types (w : World Disk) (P : User.t) (req : Upload.req)
  (reader : option User.t).


(** X9.  An accepted upload whose folder field names a folder of the
    uploader stores the file in that folder. *)
Theorem upload_into_own_folder w P now req file (folderId : string) g :
  Upload.errors req = [] → Upload.uploaded req = Some file →
  truthy (Upload.folderId req) = Some folderId →
  g ∈ folders (db w) → Folder.id g = folderId → Folder.userId g = User.id P →
  let after := post_upload unauthenticated (Some P) now req w in
  after.1 = Redirect [("success", "File uploaded successfully!")] ToFiles
  ∧ files (db after.2) =
      files (db w) ++ [uploaded_row w P now req file (Some folderId)]
  ∧ File.folderId (uploaded_row w P now req file (Some folderId)) = Some folderId.
Proof.
  intros Herr Hfile Hfid Hg Hid Hu after. subst after.
  unfold post_upload, ensureAuthenticated. rewrite Herr, Hfile, Hfid.
  destruct (findFirst_found (where_folder P folderId) (folders (db w)) g Hg)
    as [g' ->]; [|done].
  rewrite matches_where_folder. by rewrite !bool_decide_eq_true_2.
Qed.

Lemma post_upload_row w P now req file :
  wf (db w) → Upload.errors req = [] → Upload.uploaded req = Some file →
  ∃ row,
    let after := (post_upload unauthenticated (Some P) now req w).2 in
    files (db after) = files (db w) ++ [row]
    ∧ folders (db after) = folders (db w)
    ∧ disk after = disk w ∧ console after = console w
    ∧ wf (db after)
    ∧ File.id row = nextFileId (db w)
    ∧ File.userId row = User.id P
    ∧ File.isPublic row = bool_decide (Upload.isPublic req = Some "true"%string)
    ∧ File.path row = Upload.path file
    ∧ File.originalName row = Upload.originalname file.
Proof.
  intros Hwf Herr Hfile.
  destruct (post_upload_accepted unauthenticated w P now req file Herr Hfile)
    as (fid & Hpost & _ & _).
  exists (uploaded_row w P now req file fid). rewrite Hpost. cbn.
  repeat (split; [done|]). split; [|done].
  apply (wf_file_create now
           (FileInput.mk (Upload.filename file) (Upload.originalname file)
              (Upload.mimetype file) (Upload.size file) (Upload.path file)
              (truthy (Upload.description req))
              (bool_decide (Upload.isPublic req = Some "true"%string))
              (User.id P) fid) (db w) Hwf).
Qed.

Lemma unused_id d id g : wf d → nextFileId d ≤ id → g ∈ files d → File.id g ≠ id.
Proof. intros Hwf Hid Hg. pose proof (wf_sequence d Hwf g Hg). lia. Qed.

(** X10.  The identifier an accepted upload gives to the file named no file
    before; afterwards its download gives the blob path and the original
    name that came with the upload, to the uploader in any case and to
    every other reader exactly when the [isPublic] field was "true". *)
Theorem upload_then_download w P now req file :
  wf (db w) → Upload.errors req = [] → Upload.uploaded req = Some file →
  let after := (post_upload unauthenticated (Some P) now req w).2 in
  let id := nextFileId (db w) in
  (∀ reader, get_download reader id w = (not_found_page, w))
  ∧ get_download (Some P) id after =
      (Download (Upload.path file) (Upload.originalname file), after)
  ∧ (∀ reader, User.id <$> reader ≠ Some (User.id P) →
       get_download reader id after =
         (if bool_decide (Upload.isPublic req = Some "true"%string)
          then Download (Upload.path file) (Upload.originalname file)
          else not_found_page, after)).
Proof.
  intros Hwf Herr Hfile after id. subst after id.
  destruct (post_upload_row w P now req file Hwf Herr Hfile)
    as (row & Hfiles & _ & _ & _ & Hwf' & Hid & Hown & Hpub & Hpath & Hname).
  cbn zeta in *.
  set (after := (post_upload unauthenticated (Some P) now req w).2) in *.
  assert (row ∈ files (db after)) as Hrow
    by (rewrite Hfiles, elem_of_app, list_elem_of_singleton; by right).
  split; [|split].
  - intros reader. unfold get_download.
    rewrite visible_lookup_absent; [done|].
    intros g. by apply unused_id.
  - rewrite <- Hid, get_download_visible by done. cbn.
    by rewrite bool_decide_eq_true_2, Hpath, Hname.
  - intros reader Hother. rewrite <- Hid, get_download_visible by done.
    assert (owns reader row = false) as ->.
    { destruct reader as [u|]; [|done]. cbn. apply bool_decide_eq_false_2.
      intros Hu. apply Hother. cbn. congruence. }
    cbn. by rewrite Hpub, Hpath, Hname.
Qed.

(** X11.  An accepted upload followed by the uploader's delete of the new
    file leaves the table of files and the folders as they were before the
    upload. *)
Theorem upload_then_delete w P now req file :
  wf (db w) → Upload.errors req = [] → Upload.uploaded req = Some file →
  let uploaded := (post_upload unauthenticated (Some P) now req w).2 in
  let deleted :=
    delete_file unlink unauthenticated (Some P) (nextFileId (db w)) uploaded in
  deleted.1 = Json 200 JSuccess
  ∧ files (db deleted.2) = files (db w)
  ∧ folders (db deleted.2) = folders (db w).
Proof.
  intros Hwf Herr Hfile uploaded deleted. subst uploaded deleted.
  destruct (post_upload_row w P now req file Hwf Herr Hfile)
    as (row & Hfiles & Hfolders & _ & _ & Hwf' & Hid & Hown & _).
  cbn zeta in *.
  set (uploaded := (post_upload unauthenticated (Some P) now req w).2) in *.
  assert (row ∈ files (db uploaded)) as Hrow
    by (rewrite Hfiles, elem_of_app, list_elem_of_singleton; by right).
  rewrite <- Hid.
  destruct (delete_file_owner unlink unauthenticated uploaded P row Hrow Hown)
    as (G & d & log & _ & _ & ->).
  cbn. split; [done|]. split; [|done].
  rewrite Hfiles, filter_app, filter_all.
  - rewrite filter_cons_False, filter_nil, app_nil_r; [done|]. by intros [].
  - intros g Hg. rewrite Hid. by apply (unused_id (db w)).
Qed.

(** X12.  The upload form offers the folders of the user and no others,
    each once and in the order of their names, and preselects the folder of
    the query when one is given; the info page of a file offers its owner
    the same list. *)
Theorem folder_pickers_offer_own_folders w P folder :
  ∃ own,
    get_upload unauthenticated (Some P) folder w =
      (Render 200 "files/upload" (UploadForm "Upload File" own (truthy folder)), w)
    ∧ own ≡ₚ filter (λ g, Folder.userId g = User.id P) (folders (db w))
    ∧ Sorted name_asc own
    ∧ (∀ F, wf (db w) → F ∈ files (db w) → File.userId F = User.id P →
         get_info (Some P) (File.id F) w =
           (Render 200 "files/info"
              (Info (File.originalName F) F own (Some P) true), w)).
Proof.
  eexists. split; [reflexivity|]. split; [|split].
  - rewrite findMany_Permutation. apply reflexive_eq, list_filter_iff.
    intros g. cbn. by rewrite bool_decide_eq_true.
  - apply Sorted_merge_sort. apply _.
  - intros F Hwf HF Hown. rewrite get_info_visible by done.
    cbn. by rewrite bool_decide_eq_true_2.
Qed.

End AfterUpload.

(** * The upload middleware *)

Lemma append_cons c (a b : string) : String c a +:+ b = String c (a +:+ b).
Proof. reflexivity. Qed.
Lemma append_nil (b : string) : "" +:+ b = b.
Proof. reflexivity. Qed.

Lemma append_assoc (a b c : string) : (a +:+ b) +:+ c = a +:+ (b +:+ c).
Proof.
  induction a as [|x a IH]; [done|]. rewrite !append_cons. by f_equal.
Qed.

Lemma prefix_spec (t s : string) :
  String.prefix t s = true ↔ ∃ post, s = t +:+ post.
Proof.
  revert s. induction t as [|a t IH]; intros s.
  - destruct s; cbn; split; eauto.
  - destruct s as [|b s]; cbn.
    + split; [done|]. by intros [post ?].
    + destruct (Ascii.ascii_dec a b) as [->|Hne].
      * rewrite IH. split; intros [post Hpost]; exists post.
        -- by rewrite append_cons, Hpost.
        -- rewrite append_cons in Hpost. congruence.
      * split; [done|]. intros [post Hpost].
        rewrite append_cons in Hpost. congruence.
Qed.

Lemma contains_nil (t : string) : contains t "" = String.prefix t "" || false.
Proof. by destruct t. Qed.
Lemma contains_cons (t : string) c (s : string) :
  contains t (String c s) = String.prefix t (String c s) || contains t s.
Proof. by destruct t. Qed.

(** [contains] is the search for an occurrence. *)
Lemma contains_spec (t s : string) :
  contains t s = true ↔ ∃ pre post, s = pre +:+ t +:+ post.
Proof.
  induction s as [|c s IH].
  - rewrite contains_nil, orb_false_r, prefix_spec. split.
    + intros [post Hpost]. by exists "", post.
    + intros (pre & post & Hs). destruct pre; [by exists post|done].
  - rewrite contains_cons, orb_true_iff, IH, prefix_spec. split.
    + intros [[post Hpost]|(pre & post & Hs)].
      * by exists "", post.
      * exists (String c pre), post. by rewrite append_cons, Hs.
    + intros (pre & post & Hs). destruct pre as [|c' pre].
      * left. by exists post.
      * right. exists pre, post. rewrite append_cons in Hs. congruence.
Qed.

Lemma allowedTypes_test_spec (s : string) :
  allowedTypes_test s = true ↔
  ∃ t pre post, t ∈ allowedTypes ∧ s = pre +:+ t +:+ post.
Proof.
  unfold allowedTypes_test. rewrite existsb_exists. split.
  - intros (t & Ht%list_elem_of_In & (pre & post & Hs)%contains_spec). eauto 6.
  - intros (t & pre & post & Ht & Hs). exists t.
    split; [by apply list_elem_of_In|]. apply contains_spec. eauto.
Qed.

Section FileFilter.
Variable extname : string → string.
Variable toLowerCase : string → string.

(** X13.  The filter lets an upload through exactly when one of the fourteen
    listed words occurs somewhere in the MIME type and one of them occurs
    somewhere in the lower-cased extension of the name: the two words need
    not be the same, and neither need be the whole of what it occurs in. *)
Theorem fileFilter_accepts_iff (originalname mimetype : string) :
  (fileFilter extname toLowerCase originalname mimetype = cb_ok true ↔
   (∃ t pre post, t ∈ allowedTypes ∧ mimetype = pre +:+ t +:+ post)
   ∧ (∃ t pre post, t ∈ allowedTypes
        ∧ toLowerCase (extname originalname) = pre +:+ t +:+ post))
  ∧ (fileFilter extname toLowerCase originalname mimetype ≠ cb_ok true →
     fileFilter extname toLowerCase originalname mimetype =
       cb_error "Only specific file types are allowed!").
Proof.
  unfold fileFilter. rewrite <- !allowedTypes_test_spec.
  destruct (allowedTypes_test mimetype),
    (allowedTypes_test (toLowerCase (extname originalname))); cbn;
    (split; [split; [done|by intros [? ?]]|done]).
Qed.

(** X14.  A file that comes with the MIME type text/plain,
    application/msword, video/quicktime, video/x-msvideo or audio/mpeg is
    refused whatever its name, although txt, doc, mov, avi and mp3 are on the
    list: the list is matched against the MIME type as it is against the
    extension. *)
Theorem fileFilter_refuses_unlisted_mimetypes (originalname mimetype : string) :
  mimetype ∈ unlisted_mimetypes →
  fileFilter extname toLowerCase originalname mimetype =
    cb_error "Only specific file types are allowed!".
Proof.
  intros Hm. unfold fileFilter.
  assert (allowedTypes_test mimetype = false) as ->; [|done].
  unfold unlisted_mimetypes in Hm.
  repeat (apply elem_of_cons in Hm as [->|Hm]; [by vm_compute|]).
  by apply elem_of_nil in Hm.
Qed.

End FileFilter.

Lemma dash_free_app (a b : string) :
  dash_free (a +:+ b) = dash_free a && dash_free b.
Proof.
  induction a as [|c a IH]; [done|].
  rewrite append_cons. cbn. by rewrite IH, andb_assoc.
Qed.

Lemma pretty_N_go_dash_free (x : N) (s : string) :
  dash_free s = true → dash_free (pretty_N_go x s) = true.
Proof.
  revert s. induction (N.lt_wf_0 x) as [x _ IH]; intros s Hs.
  assert (x = 0 ∨ 0 < x)%N as [->|Hpos] by lia.
  - by rewrite pretty_N_go_0.
  - rewrite pretty_N_go_step by done. apply IH; [by apply N.div_lt|].
    cbn. rewrite Hs, andb_true_r. unfold pretty_N_char.
    by repeat case_match.
Qed.

Lemma pretty_N_dash_free (x : N) : dash_free (pretty x) = true.
Proof.
  unfold pretty, pretty_N. case_decide; [done|].
  by apply pretty_N_go_dash_free.
Qed.

(** Two texts cut at their first dash. *)
Lemma split_at_dash (d1 d2 r1 r2 : string) :
  dash_free d1 = true → dash_free d2 = true →
  d1 +:+ String "-" r1 = d2 +:+ String "-" r2 → d1 = d2 ∧ r1 = r2.
Proof.
  revert d2. induction d1 as [|c d1 IH]; intros [|c' d2]; cbn;
    rewrite ?append_cons, ?append_nil; intros H1 H2 Heq.
  - by simplify_eq.
  - by simplify_eq.
  - by simplify_eq.
  - apply andb_true_iff in H1 as [_ H1]. apply andb_true_iff in H2 as [_ H2].
    simplify_eq. destruct (IH d2 H1 H2) as [-> ->]; done.
Qed.

(** X15.  The name under which a blob is stored determines the time, the
    random number and the original name it was made from: two uploads get
    the same stored name exactly when all three coincide. *)
Theorem storage_filename_inj (now now' rnd rnd' : N) (name name' : string) :
  storage_filename now rnd name = storage_filename now' rnd' name' ↔
  now = now' ∧ rnd = rnd' ∧ name = name'.
Proof.
  split; [|by intros (-> & -> & ->)].
  unfold storage_filename. intros [= Heq].
  rewrite !append_assoc, !append_cons, !append_nil in Heq.
  apply split_at_dash in Heq as [Hnow Heq]; [|apply pretty_N_dash_free..].
  apply split_at_dash in Heq as [Hrnd Hname]; [|apply pretty_N_dash_free..].
  by apply (inj pretty) in Hnow, Hrnd.
Qed.

Example storage_filename_sample :
  storage_filename 1700000000000 42 "a-b.txt" = cb_ok "1700000000000-42-a-b.txt"%string.
Proof. by vm_compute. Qed.

(** * The login strategy *)

Section Login.
Variable toLowerCase : string → string.
Variable bcrypt_compare : string → string → bool.
Implicit Types (users : list Account.t) (u : Account.t)
  (email password : string).

Lemma by_email_lookup users e u :
  findUnique (Prisma.Obj [Prisma.equals Account.email (Some e)]) users = Some u →
  u ∈ users ∧ Account.email u = e.
Proof.
  intros [Hu Hm]%findFirst_Some. split; [done|].
  cbn in Hm. rewrite andb_true_r in Hm. by apply bool_decide_eq_true in Hm.
Qed.

Lemma by_email_none users e :
  findUnique (Prisma.Obj [Prisma.equals Account.email (Some e)]) users = None ↔
  ∀ u, u ∈ users → Account.email u ≠ e.
Proof.
  unfold findUnique. rewrite findFirst_None. split.
  - intros H u Hu He. specialize (H u Hu). cbn in H.
    by rewrite bool_decide_eq_true_2 in H.
  - intros H u Hu. cbn. rewrite andb_true_r.
    apply bool_decide_eq_false_2. by apply H.
Qed.

Lemma by_id_lookup users i u :
  findUnique (Prisma.Obj [Prisma.equals Account.id (Some i)]) users = Some u →
  u ∈ users ∧ Account.id u = i.
Proof.
  intros [Hu Hm]%findFirst_Some. split; [done|].
  cbn in Hm. rewrite andb_true_r in Hm. by apply bool_decide_eq_true in Hm.
Qed.

(** X16.  With addresses unique in the table, the strategy hands a user to
    passport exactly when that user is the account filed under the
    lower-cased address and [bcrypt.compare] accepts the password against
    the account's hash; no other account and no wrong password gets
    through. *)
Theorem verify_authenticates_exactly users email password u :
  NoDup (Account.email <$> users) →
  verify toLowerCase bcrypt_compare users email password = done_user u ↔
  u ∈ users ∧ Account.email u = toLowerCase email
  ∧ bcrypt_compare password (Account.password u) = true.
Proof.
  intros Hnd. unfold verify. split.
  - destruct (findUnique _ users) as [v|] eqn:Ev; [|done].
    apply by_email_lookup in Ev as [Hv He].
    destruct (bcrypt_compare password (Account.password v)) eqn:Ec; [|done].
    by intros [= <-].
  - intros (Hu & He & Hc).
    destruct (findUnique _ users) as [v|] eqn:Ev.
    + apply by_email_lookup in Ev as [Hv Hev].
      rewrite (key_unique Account.email users v u) by (done || congruence).
      by rewrite Hc.
    + rewrite by_email_none in Ev. by destruct (Ev u Hu).
Qed.

(** X17.  A refused login tells whether the address has an account: the
    message is "No user found with that email address." exactly when no
    account is filed under the lower-cased address, and otherwise it is
    "Incorrect password.". *)
Theorem verify_tells_accounts users email password :
  (verify toLowerCase bcrypt_compare users email password =
     done_false "No user found with that email address." ↔
   ∀ u, u ∈ users → Account.email u ≠ toLowerCase email)
  ∧ (∀ message,
       verify toLowerCase bcrypt_compare users email password = done_false message →
       message = "No user found with that email address."%string
       ∨ message = "Incorrect password."%string).
Proof.
  unfold verify. rewrite <- by_email_none.
  destruct (findUnique _ users) as [v|]; cbn.
  - destruct (bcrypt_compare password (Account.password v)).
    + split; [done|]. done.
    + split; [done|]. intros message [= <-]. by right.
  - split; [done|]. intros message [= <-]. by left.
Qed.

(** X18.  With identifiers unique in the table, the session of an account
    that is in the table is read back as that account's id, email, name and
    creation time (the password hash is not selected), and an identifier
    that is in no account is read back as the error "User not found". *)
Theorem session_round_trip users :
  NoDup (Account.id <$> users) →
  (∀ u, u ∈ users →
     deserializeUser users (serializeUser u) =
       done_user (User.mk (Account.id u) (Account.email u) (Account.name u)
                    (Account.createdAt u)))
  ∧ (∀ i, (∀ u, u ∈ users → Account.id u ≠ i) →
       deserializeUser users i = done_error "User not found").
Proof.
  intros Hnd. unfold deserializeUser, serializeUser. split.
  - intros u Hu.
    destruct (findUnique _ users) as [v|] eqn:Ev.
    + apply by_id_lookup in Ev as [Hv Hid].
      by rewrite (key_unique Account.id users v u).
    + unfold findUnique in Ev. rewrite findFirst_None in Ev.
      specialize (Ev u Hu). cbn in Ev.
      by rewrite bool_decide_eq_true_2 in Ev.
  - intros i Hnone.
    destruct (findUnique _ users) as [v|] eqn:Ev; [|done].
    apply by_id_lookup in Ev as [Hv Hid]. by destruct (Hnone v Hv).
Qed.

End Login.

(** * Listings, reads and privacy over time *)

Section Privacy.
Context {Disk : Type}.
Variable unlink : string → Disk → option string * Disk.
Variable unauthenticated : Response.
Implicit Types (w : World Disk) (F : File.t) (P : User.t)
  (reader : option User.t) (rs : list Request).

Lemma serve_wf rs w : wf (db w) → wf (db (serve unlink unauthenticated rs w)).
Proof.
  revert w. induction rs as [|r rs IH]; intros w Hwf; [done|].
  rewrite serve_cons. apply IH.
  eapply db_step_wf; [apply handle_db_step|done].
Qed.

(** X19.  Every file of the public listing can be downloaded by every
    reader, signed in or not, and every file of a user's own listing can be
    downloaded by that user: the listings show nothing that the download
    route then refuses. *)
Theorem listed_files_download w P :
  wf (db w) →
  (∀ listed F reader,
     get_public w = (Render 200 "files/public" (Files "Public Files" listed None), w) →
     F ∈ listed →
     get_download reader (File.id F) w =
       (Download (File.path F) (File.originalName F), w))
  ∧ (∀ listed F,
     get_index unauthenticated (Some P) w =
       (Render 200 "files/index" (Files "My Files" listed (Some P)), w) →
     F ∈ listed →
     get_download (Some P) (File.id F) w =
       (Download (File.path F) (File.originalName F), w)).
Proof.
  intros Hwf. split.
  - intros listed F reader [= <-] HF.
    rewrite findMany_Permutation in HF.
    apply list_elem_of_filter in HF as [Hpub HF]. cbn in Hpub.
    apply bool_decide_eq_true in Hpub.
    by rewrite get_download_visible, Hpub, orb_true_r.
  - intros listed F [= <-] HF.
    rewrite findMany_Permutation in HF.
    apply list_elem_of_filter in HF as [Hown HF]. cbn in Hown.
    rewrite get_download_visible by done. cbn. by rewrite Hown.
Qed.

(** X20.  A private file stays out of reach: whatever requests are served
    after it was stored, by whatever users, the info page and the download
    of its identifier answer a reader other than its owner with the 404
    page. *)
Theorem private_stays_private rs w F reader :
  wf (db w) → F ∈ files (db w) → File.isPublic F = false →
  owns reader F = false →
  let later := serve unlink unauthenticated rs w in
  get_download reader (File.id F) later = (not_found_page, later)
  ∧ get_info reader (File.id F) later = (not_found_page, later).
Proof.
  intros Hwf HF Hpriv Hnot later.
  assert (Prisma.findFirst (where_visible reader (File.id F)) (files (db later))
          = None) as Hnone.
  { apply findFirst_None. intros F' HF'.
    rewrite matches_where_visible.
    destruct (bool_decide_reflect (File.id F' = File.id F)) as [Hid|]; [|done].
    subst later.
    destruct (serve_descends unlink unauthenticated rs w F' Hwf HF')
      as (F0 & HF0 & Hid0 & Hsame).
    { rewrite Hid. by apply Hwf. }
    rewrite (file_of_id (db w) F0 F) in Hsame by (done || congruence).
    unfold same_but_folder in Hsame.
    assert (File.userId F' = File.userId F ∧ File.isPublic F' = File.isPublic F)
      as [Hu Hp] by (destruct F, F'; cbn in *; by simplify_eq).
    rewrite Hp, Hpriv, orb_false_r. cbn.
    destruct reader as [u|]; [|done]. cbn in Hnot |- *. by rewrite Hu. }
  unfold get_download, get_info. by rewrite Hnone.
Qed.

End Privacy.

(** * The further properties on the sample deployment *)


Lemma others_cannot_touch_witness :
  wf (db world)
  ∧ Forall (λ r, owns (requester r) f3 = false)
      [DELETE_file (Some alice) 3; POST_assign_folder (Some alice) 3 (Some "g1"%string);
       DELETE_file None 3; POST_upload (Some alice) 300 (upload_to None None)]
  ∧ f3 ∈ files (db (serve unlink_paths login
      [DELETE_file (Some alice) 3; POST_assign_folder (Some alice) 3 (Some "g1"%string);
       DELETE_file None 3; POST_upload (Some alice) 300 (upload_to None None)] world)).
Proof.
  assert (Forall (λ r, owns (requester r) f3 = false)
      [DELETE_file (Some alice) 3; POST_assign_folder (Some alice) 3 (Some "g1"%string);
       DELETE_file None 3; POST_upload (Some alice) 300 (upload_to None None)])
    as Hothers by (repeat constructor).
  split; [exact sample_wf|]. split; [exact Hothers|].
  apply (others_cannot_touch unlink_paths login _ world f3 sample_wf Hothers).
  right. right. by left.
Defined.

Lemma columns_are_kept_witness :
  wf (db world) ∧ f1 ∈ files (db world)
  ∧ File.with_folderId (Some "g1"%string) f1
    ∈ files (db (serve unlink_paths login
                   [POST_assign_folder (Some alice) 1 (Some "g1"%string)] world))
  ∧ same_but_folder f1 (File.with_folderId (Some "g1"%string) f1).
Proof.
  assert (File.with_folderId (Some "g1"%string) f1
          ∈ files (db (serve unlink_paths login
                   [POST_assign_folder (Some alice) 1 (Some "g1"%string)] world)))
    as Hafter by (by left).
  split; [exact sample_wf|]. split; [by left|]. split; [exact Hafter|].
  apply (columns_are_kept unlink_paths login
           [POST_assign_folder (Some alice) 1 (Some "g1"%string)] world f1
           (File.with_folderId (Some "g1"%string) f1) sample_wf);
    [by left|exact Hafter|done].
Defined.

Lemma delete_removes_exactly_witness :
  wf (db world) ∧ f1 ∈ files (db world) ∧ File.userId f1 = User.id alice
  ∧ files (db (delete_file unlink_paths login (Some alice) 1 world).2) = [f2; f3]
  ∧ console (delete_file unlink_paths login (Some alice) 1 world).2 =
      [("Error deleting file from filesystem:",
        "ENOENT: no such file or directory")]%string.
Proof.
  split; [exact sample_wf|]. split; [by left|]. split; [done|].
  destruct (delete_removes_exactly unlink_paths login world alice f1 sample_wf)
    as (Hfiles & _ & _ & _ & Hlog); [by left|done|].
  split; [exact Hfiles|exact Hlog].
Defined.

Lemma sample_resolves_g1 : resolves (db world) alice (Some "g1"%string).
Proof. exists g1. split; [by left|done]. Qed.

Lemma move_rewrites_one_folder_witness :
  wf (db world) ∧ f1 ∈ files (db world) ∧ File.userId f1 = User.id alice
  ∧ resolves (db world) alice (Some "g1"%string)
  ∧ length (files (db (assign_folder login (Some alice) 1 (Some "g1"%string) world).2)) = 3%nat
  ∧ disk (assign_folder login (Some alice) 1 (Some "g1"%string) world).2 = disk world.
Proof.
  split; [exact sample_wf|]. split; [by left|]. split; [done|].
  split; [exact sample_resolves_g1|].
  destruct (move_rewrites_one_folder login world alice f1 (Some "g1"%string)
              sample_wf) as (_ & Hlen & _ & Hdisk & _);
    [by left|done|exact sample_resolves_g1|].
  split; [exact Hlen|exact Hdisk].
Defined.

Lemma last_move_wins_witness :
  wf (db world) ∧ f1 ∈ files (db world) ∧ File.userId f1 = User.id alice
  ∧ assign_folder login (Some alice) 1 None
      (assign_folder login (Some alice) 1 (Some "g1"%string) world).2 =
    assign_folder login (Some alice) 1 None world.
Proof.
  split; [exact sample_wf|]. split; [by left|]. split; [done|].
  apply (last_move_wins login world alice f1 (Some "g1"%string) None sample_wf);
    [by left|done|exact sample_resolves_g1|done].
Defined.

Lemma move_and_back_witness :
  wf (db world) ∧ f1 ∈ files (db world) ∧ File.userId f1 = User.id alice
  ∧ truthy None = File.folderId f1
  ∧ (assign_folder login (Some alice) 1 None
       (assign_folder login (Some alice) 1 (Some "g1"%string) world).2).2 = world.
Proof.
  split; [exact sample_wf|]. split; [by left|]. split; [done|]. split; [done|].
  apply (move_and_back login world alice f1 (Some "g1"%string) None sample_wf);
    [by left|done|exact sample_resolves_g1|done|done].
Defined.


Lemma upload_into_own_folder_witness :
  g2 ∈ folders (db world) ∧ Folder.userId g2 = User.id bob
  ∧ File.folderId <$>
      last (files (db (post_upload login (Some bob) 300
                         (upload_to (Some "g2") None) world).2))
    = Some (Some "g2"%string).
Proof.
  split; [by right; left|]. split; [done|].
  destruct (upload_into_own_folder login world bob 300
              (upload_to (Some "g2") None) blob "g2" g2)
    as (_ & Hfiles & _); [done|done|done|by right; left|done|done|].
  by rewrite Hfiles.
Defined.

Lemma upload_then_download_witness :
  wf (db world)
  ∧ get_download (Some alice) 4 world = (not_found_page, world)
  ∧ (get_download None 4
       (post_upload login (Some bob) 300 (upload_to None (Some "true")) world).2).1
    = Download "uploads/300-4-d.txt" "d.txt"
  ∧ (get_download None 4
       (post_upload login (Some bob) 300 (upload_to None None) world).2).1
    = not_found_page.
Proof.
  split; [exact sample_wf|].
  destruct (upload_then_download login world bob 300
              (upload_to None (Some "true")) blob sample_wf)
    as (Hbefore & _ & Hpublic); [done|done|].
  destruct (upload_then_download login world bob 300
              (upload_to None None) blob sample_wf)
    as (_ & _ & Hprivate); [done|done|].
  split; [exact (Hbefore (Some alice))|]. split.
  - exact (f_equal fst (Hpublic None ltac:(done))).
  - exact (f_equal fst (Hprivate None ltac:(done))).
Defined.

Lemma upload_then_delete_witness :
  wf (db world)
  ∧ files (db (delete_file unlink_paths login (Some bob) 4
                 (post_upload login (Some bob) 300 (upload_to None None) world).2).2)
    = [f1; f2; f3].
Proof.
  split; [exact sample_wf|].
  destruct (upload_then_delete unlink_paths login world bob 300
              (upload_to None None) blob sample_wf) as (_ & Hfiles & _);
    [done|done|].
  exact Hfiles.
Defined.

Example sample_upload_form :
  (get_upload login (Some alice) (Some "g1"%string) world).1 =
    Render 200 "files/upload" (UploadForm "Upload File" [g1] (Some "g1"%string)).
Proof. by vm_compute. Qed.

Lemma fileFilter_refuses_unlisted_mimetypes_witness :
  "text/plain"%string ∈ unlisted_mimetypes
  ∧ fileFilter (λ s, s) (λ s, s) ".txt" "text/plain" =
      cb_error "Only specific file types are allowed!".
Proof.
  split; [by left|].
  apply (fileFilter_refuses_unlisted_mimetypes (λ s, s) (λ s, s)). by left.
Defined.

Example fileFilter_samples :
  fileFilter (λ s, s) (λ s, s) ".png" "image/png" = cb_ok true
  ∧ fileFilter (λ s, s) (λ s, s) ".png" "application/pdf" = cb_ok true
  ∧ fileFilter (λ s, s) (λ s, s) ".jpgx" "image/jpeg" = cb_ok true
  ∧ fileFilter (λ s, s) (λ s, s) ".exe" "image/png" =
      cb_error "Only specific file types are allowed!"
  ∧ fileFilter (λ s, s) (λ s, s) ".png" "IMAGE/PNG" =
      cb_error "Only specific file types are allowed!".
Proof. by vm_compute. Qed.

Lemma sample_emails : NoDup (Account.email <$> SampleAccounts.users).
Proof. by apply (bool_decide_unpack _). Qed.

Lemma sample_account_ids : NoDup (Account.id <$> SampleAccounts.users).
Proof. by apply (bool_decide_unpack _). Qed.

Lemma verify_authenticates_exactly_witness :
  NoDup (Account.email <$> SampleAccounts.users)
  ∧ verify (λ s, s) SampleAccounts.compare SampleAccounts.users
      "alice@example.org" "wonderland" = done_user SampleAccounts.alice
  ∧ verify (λ s, s) SampleAccounts.compare SampleAccounts.users
      "alice@example.org" "builder" ≠ done_user SampleAccounts.bob.
Proof.
  split; [exact sample_emails|]. split.
  - apply (verify_authenticates_exactly (λ s, s) SampleAccounts.compare
             SampleAccounts.users "alice@example.org" "wonderland"
             SampleAccounts.alice sample_emails).
    split; [by left|done].
  - intros Hbob.
    apply (verify_authenticates_exactly (λ s, s) SampleAccounts.compare
             SampleAccounts.users "alice@example.org" "builder"
             SampleAccounts.bob sample_emails) in Hbob as (_ & He & _).
    done.
Defined.

Example verify_samples :
  verify (λ s, s) SampleAccounts.compare SampleAccounts.users
    "alice@example.org" "builder" = done_false "Incorrect password."
  ∧ verify (λ s, s) SampleAccounts.compare SampleAccounts.users
    "carol@example.org" "wonderland" =
    done_false "No user found with that email address.".
Proof. by vm_compute. Qed.

Lemma session_round_trip_witness :
  NoDup (Account.id <$> SampleAccounts.users)
  ∧ deserializeUser SampleAccounts.users (serializeUser SampleAccounts.bob) =
      done_user bob
  ∧ deserializeUser SampleAccounts.users 7 = done_error "User not found".
Proof.
  split; [exact sample_account_ids|].
  destruct (session_round_trip SampleAccounts.users sample_account_ids)
    as [Hback Hgone].
  split.
  - apply (Hback SampleAccounts.bob). right. by left.
  - apply Hgone. intros u Hu.
    repeat (apply elem_of_cons in Hu as [->|Hu]); try by apply elem_of_nil in Hu.
    all: done.
Defined.

Lemma listed_files_download_witness :
  wf (db world)
  ∧ get_download None 2 world = (Download "uploads/200-2-b.png" "b.png", world)
  ∧ get_download (Some alice) 1 world =
      (Download "uploads/100-1-a.txt" "a.txt", world).
Proof.
  split; [exact sample_wf|].
  destruct (listed_files_download login world alice sample_wf) as [Hpublic Hown].
  split.
  - apply (Hpublic [f2] f2 None); [done|by left].
  - apply (Hown [f2; f1] f1); [done|by right; left].
Defined.

Lemma private_stays_private_witness :
  wf (db world) ∧ f3 ∈ files (db world) ∧ File.isPublic f3 = false
  ∧ owns (Some alice) f3 = false
  ∧ (get_download (Some alice) 3
       (serve unlink_paths login
          [POST_assign_folder (Some bob) 3 (Some "g2"%string);
           POST_assign_folder (Some alice) 3 (Some "g1"%string);
           DELETE_file (Some alice) 3] world)).1 = not_found_page.
Proof.
  split; [exact sample_wf|]. split; [by right; right; left|].
  split; [done|]. split; [done|].
  destruct (private_stays_private unlink_paths login
              [POST_assign_folder (Some bob) 3 (Some "g2"%string);
               POST_assign_folder (Some alice) 3 (Some "g1"%string);
               DELETE_file (Some alice) 3] world f3 (Some alice) sample_wf)
    as [Hdown _]; [by right; right; left|done|done|].
  exact (f_equal fst Hdown).
Defined.
